(** * Order lifecycle, delivery tracking, pricing and refunds of the storefront

    A shallow embedding of the handlers of the admin order page
    (AdminOrders: handleStatusUpdate, handleDeliveryUpdate, handleRefund,
    the cash-on-delivery payment selector, getDeliveryProgress), of the cart
    page (CartPage: updateQuantity, applyCoupon, subtotal, discount,
    shippingCharge, total) and of the home page (handleAddToCart).

    Conventions of the embedding:
    - a JavaScript number is an exact rational [Q]; rounding of doubles and
      NaN are outside the model, [Infinity] appears only as the second
      argument of [Math.min] and has its own constructor.  What is stated
      of the amounts the code computes (subtotal, discount, total, the
      percentage of a label) is therefore an equality between expressions
      the code evaluates itself, a comparison that rounding keeps (a sum of
      amounts that are not negative, a margin of 1), or an evaluation at
      whole amounts;
    - the remote data store is a record of tables, each a list of rows in
      insertion order; a write either is accepted and applied, or is
      rejected with an error message and changes nothing.  The answer of
      the store to each write is an input of the handler ([Response]);
    - identifiers generated by the store and the clock are inputs too;
    - React state is a record, a handler maps the store and the state to
      the new store, the new state and the toasts it shows. *)

From Stdlib Require Import List String Ascii Bool ZArith QArith Qminmax Lqa Lia.
From Stdlib Require Import Qround.
Import ListNotations.

Local Open Scope string_scope.
Local Open Scope Q_scope.

(** ** JavaScript primitives used by the handlers *)

(** The second argument of [Math.min] in the discount: a number or
    [Infinity]. *)
Inductive Bound : Type :=
| Finite (q : Q)
| Infinity.

(** [Math.min(x, b)]. *)
Definition Math_min (x : Q) (b : Bound) : Q :=
  match b with
  | Finite m => Qmin x m
  | Infinity => x
  end.

(** [m || Infinity] on a nullable number: [null] and [0] are falsy. *)
Definition or_Infinity (m : option Q) : Bound :=
  match m with
  | Some q => if Qeq_bool q 0 then Infinity else Finite q
  | None => Infinity
  end.

(** Truthiness of a nullable number, as in [c.min_order_value && ...]. *)
Definition truthy (m : option Q) : bool :=
  match m with
  | Some q => negb (Qeq_bool q 0)
  | None => false
  end.

(** [!s] on a string: only the empty string is falsy. *)
Definition is_empty (s : string) : bool :=
  match s with
  | EmptyString => true
  | String _ _ => false
  end.

(** [s || d] on a nullable string. *)
Definition or_default (s : option string) (d : string) : string :=
  match s with
  | Some x => if is_empty x then d else x
  | None => d
  end.

(** [s || null] on a string. *)
Definition or_null (s : string) : option string :=
  if is_empty s then None else Some s.

(** [Array.prototype.indexOf]: the first position of [x], or [-1]. *)
Fixpoint indexOf_from (l : list string) (x : string) (i : Z) : Z :=
  match l with
  | [] => (-1)%Z
  | y :: l' => if String.eqb y x then i else indexOf_from l' x (i + 1)%Z
  end.

Definition indexOf (l : list string) (x : string) : Z := indexOf_from l x 0%Z.

(** [Array.prototype.find]. *)
Definition find_item {A : Type} (p : A -> bool) (l : list A) : option A :=
  List.find p l.

(** ASCII part of [String.prototype.toUpperCase]. *)
Definition upper_ascii (c : ascii) : ascii :=
  let n := nat_of_ascii c in
  if (97 <=? n)%nat && (n <=? 122)%nat then ascii_of_nat (n - 32) else c.

Fixpoint toUpperCase (s : string) : string :=
  match s with
  | EmptyString => EmptyString
  | String c s' => String (upper_ascii c) (toUpperCase s')
  end.

(** [!s.trim()]: the string holds nothing but ASCII white space. *)
Definition is_space (c : ascii) : bool :=
  let n := nat_of_ascii c in
  (n =? 32)%nat || ((9 <=? n)%nat && (n <=? 13)%nat).

Fixpoint is_blank (s : string) : bool :=
  match s with
  | EmptyString => true
  | String c s' => is_space c && is_blank s'
  end.

(** ** The remote store's protocol *)

(** Answer of the store to one write: [None] when it is accepted,
    [Some message] when it is rejected. *)
Definition Response : Type := option string.

(** [.single()]: the row when the query matches exactly one, else no data. *)
Definition single {A : Type} (rows : list A) : option A :=
  match rows with
  | [r] => Some r
  | _ => None
  end.

(** [update(...).eq(...)]: every row matching [p] is replaced by [f row]. *)
Definition update_where {A : Type} (p : A -> bool) (f : A -> A) (rows : list A)
  : list A :=
  map (fun r => if p r then f r else r) rows.

(** A toast shown to the operator. *)
Record Toast : Type := mkToast {
  title : string;
  description : string;
  destructive : bool
}.

Definition toast_error (message : string) : Toast := mkToast "Error" message true.
Definition toast_info (t d : string) : Toast := mkToast t d false.

(** ** Data model (the rows of the tables, as the handlers use them) *)

(** [OrderStatus], in the order of the constant [ORDER_STATUSES]. *)
Inductive OrderStatus : Type :=
| OS_new | OS_confirmed | OS_packed | OS_shipped | OS_delivered
| OS_cancelled | OS_returned.

Definition ORDER_STATUSES : list OrderStatus :=
  [OS_new; OS_confirmed; OS_packed; OS_shipped; OS_delivered; OS_cancelled;
   OS_returned].

(** The payment status values of the selector of the order page. *)
Inductive PaymentStatus : Type :=
| PS_pending | PS_paid | PS_failed | PS_refunded | PS_partial.

(** [DeliveryStatus] values are kept as the strings they are at run time:
    handleDeliveryUpdate receives a string and stores it without a check. *)
Definition DELIVERY_STATUSES : list string :=
  ["pending"; "assigned"; "picked"; "in_transit"; "delivered"; "failed"].

Inductive CouponType : Type :=
| percentage
| fixed.

Module Order.
Record t : Type := mk {
  id : string;
  order_number : string;
  status : OrderStatus;
  payment_status : PaymentStatus;
  payment_method : option string;
  total : Q
}.
Definition set_status (o : t) (s : OrderStatus) : t :=
  mk (id o) (order_number o) s (payment_status o) (payment_method o) (total o).
Definition set_payment_status (o : t) (p : PaymentStatus) : t :=
  mk (id o) (order_number o) (status o) p (payment_method o) (total o).
End Order.

Module Payment.
Record t : Type := mk {
  id : string;
  order_id : string;
  amount : Q;
  method : string;
  status : PaymentStatus;
  refund_amount : option Q;
  refund_reason : option string
}.
Definition set_status (p : t) (s : PaymentStatus) : t :=
  mk (id p) (order_id p) (amount p) (method p) s (refund_amount p)
     (refund_reason p).
End Payment.

Module Delivery.
Record t : Type := mk {
  id : string;
  order_id : string;
  status : string;
  partner_name : option string;
  tracking_number : option string;
  tracking_url : option string;
  delivered_at : option string;
  is_cod : bool;
  cod_amount : Q;
  cod_collected : bool
}.
End Delivery.

Module Coupon.
Record t : Type := mk {
  code : string;
  type : CouponType;
  value : Q;
  min_order_value : option Q;
  max_discount : option Q;
  is_active : bool
}.
End Coupon.

Module Product.
Record t : Type := mk {
  id : string;
  name : string;
  price : Q;
  stock_quantity : Z
}.
End Product.

(** A row of [cart_items]. *)
Module CartItem.
Record t : Type := mk {
  id : string;
  cart_id : string;
  product_id : string;
  quantity : Z
}.
Definition set_quantity (i : t) (q : Z) : t :=
  mk (id i) (cart_id i) (product_id i) q.
End CartItem.

(** [CartItemWithProduct]: a cart line joined with its product. *)
Module CartLine.
Record t : Type := mk {
  id : string;
  cart_id : string;
  product_id : string;
  quantity : Z;
  product : Product.t
}.
Definition set_quantity (i : t) (q : Z) : t :=
  mk (id i) (cart_id i) (product_id i) q (product i).
End CartLine.

Module Cart.
Record t : Type := mk {
  id : string;
  user_id : string
}.
End Cart.

(** The tables of the remote store. *)
Module Db.
Record t : Type := mk {
  orders : list Order.t;
  deliveries : list Delivery.t;
  payments : list Payment.t;
  coupons : list Coupon.t;
  cart : list Cart.t;
  cart_items : list CartItem.t
}.

Definition with_orders (db : t) (l : list Order.t) : t :=
  mk l (deliveries db) (payments db) (coupons db) (cart db) (cart_items db).
Definition with_deliveries (db : t) (l : list Delivery.t) : t :=
  mk (orders db) l (payments db) (coupons db) (cart db) (cart_items db).
Definition with_payments (db : t) (l : list Payment.t) : t :=
  mk (orders db) (deliveries db) l (coupons db) (cart db) (cart_items db).
Definition with_cart (db : t) (l : list Cart.t) : t :=
  mk (orders db) (deliveries db) (payments db) (coupons db) l (cart_items db).
Definition with_cart_items (db : t) (l : list CartItem.t) : t :=
  mk (orders db) (deliveries db) (payments db) (coupons db) (cart db) l.

(** A write under the answer [r]: applied only when the store accepts it. *)
Definition commit (r : Response) (db db' : t) : t :=
  match r with
  | None => db'
  | Some _ => db
  end.
End Db.

(** ** The cart page (CartPage) *)

Module CartPage.

Record State : Type := mk {
  cartItems : list CartLine.t;
  couponCode : string;
  appliedCoupon : option Coupon.t;
  isLoading : bool;
  isApplyingCoupon : bool
}.

Definition Outcome : Type := (Db.t * State * list Toast)%type.

Definition setCartItems (s : State) (l : list CartLine.t) : State :=
  mk l (couponCode s) (appliedCoupon s) (isLoading s) (isApplyingCoupon s).

Definition setAppliedCoupon (s : State) (c : option Coupon.t) : State :=
  mk (cartItems s) (couponCode s) c (isLoading s) (isApplyingCoupon s).

Definition setCouponCode (s : State) (c : string) : State :=
  mk (cartItems s) c (appliedCoupon s) (isLoading s) (isApplyingCoupon s).

Definition setIsApplyingCoupon (s : State) (b : bool) : State :=
  mk (cartItems s) (couponCode s) (appliedCoupon s) (isLoading s) b.

(** [cartItems.reduce((sum, item) => sum + item.product.price * item.quantity, 0)] *)
Definition subtotal_of (items : list CartLine.t) : Q :=
  fold_left
    (fun sum item =>
       sum + Product.price (CartLine.product item)
             * inject_Z (CartLine.quantity item))
    items 0.

Definition subtotal (s : State) : Q := subtotal_of (cartItems s).

Definition discount (s : State) : Q :=
  match appliedCoupon s with
  | Some c =>
      match Coupon.type c with
      | percentage =>
          Math_min (subtotal s * Coupon.value c / 100)
                   (or_Infinity (Coupon.max_discount c))
      | fixed => Coupon.value c
      end
  | None => 0
  end.

Definition shippingCharge (s : State) : Q :=
  if Qle_bool 500 (subtotal s) then 0 else 50.

Definition total (s : State) : Q := subtotal s - discount s + shippingCharge s.

(** The four figures of the order summary. *)
Record Totals : Type := mkTotals {
  t_subtotal : Q;
  t_discount : Q;
  t_shippingCharge : Q;
  t_total : Q
}.

Definition totals (s : State) : Totals :=
  mkTotals (subtotal s) (discount s) (shippingCharge s) (total s).

(** [updateQuantity(itemId, newQuantity)]; [r] answers the update of
    [cart_items], which the page does not inspect. *)
Definition updateQuantity (itemId : string) (newQuantity : Z) (r : Response)
  (db : Db.t) (s : State) : Outcome :=
  if (newQuantity <? 1)%Z then (db, s, [])
  else
    match find_item (fun i => String.eqb (CartLine.id i) itemId) (cartItems s) with
    | None =>
        (db, s, [mkToast "Error" "Not enough stock available" true])
    | Some item =>
        if (Product.stock_quantity (CartLine.product item) <? newQuantity)%Z
        then (db, s, [mkToast "Error" "Not enough stock available" true])
        else
          (Db.commit r db
             (Db.with_cart_items db
                (update_where (fun i => String.eqb (CartItem.id i) itemId)
                   (fun i => CartItem.set_quantity i newQuantity)
                   (Db.cart_items db))),
           setCartItems s
             (map (fun i => if String.eqb (CartLine.id i) itemId
                            then CartLine.set_quantity i newQuantity else i)
                (cartItems s)),
           [])
    end.

(** [applyCoupon()]: the coupon is looked up by its upper-cased code among
    the active coupons; a failed read takes the branch of no match.  The
    interpolated parts of the toast texts are left out. *)
Definition applyCoupon (db : Db.t) (s : State) : Outcome :=
  if is_blank (couponCode s) then (db, s, [])
  else
    match single
            (filter (fun c => String.eqb (Coupon.code c) (toUpperCase (couponCode s))
                              && Coupon.is_active c)
               (Db.coupons db)) with
    | None =>
        (db, setIsApplyingCoupon s false,
         [mkToast "Invalid coupon" "This coupon code is not valid" true])
    | Some couponData =>
        if truthy (Coupon.min_order_value couponData)
           && match Coupon.min_order_value couponData with
              | Some m => negb (Qle_bool m (subtotal s))
              | None => false
              end
        then (db, setIsApplyingCoupon s false,
              [mkToast "Minimum order not met" "Minimum order value is" true])
        else (db, setIsApplyingCoupon (setAppliedCoupon s (Some couponData)) false,
              [toast_info "Coupon applied" "applied successfully"])
    end.

Definition removeCoupon (s : State) : State :=
  setCouponCode (setAppliedCoupon s None) "".

End CartPage.

(** ** The home page (HomePage) *)

Module HomePage.

(** [handleAddToCart(product)] for the signed-in user [user] (its id).
    [r_cart] answers the insert of a new cart and [r_item] the write of the
    cart line; [new_cart_id] and [new_item_id] are the identifiers the store
    gives to inserted rows.  The client reports errors in its result, which
    this handler does not read, so the catch branch is never entered. *)
Definition handleAddToCart (user : option string) (product : Product.t)
  (r_cart r_item : Response) (new_cart_id new_item_id : string) (db : Db.t)
  : Db.t * list Toast :=
  match user with
  | None =>
      (db, [toast_info "Please login" "You need to login to add items to cart"])
  | Some uid =>
      let found := single (filter (fun c => String.eqb (Cart.user_id c) uid)
                             (Db.cart db)) in
      let '(db1, the_cart) :=
        match found with
        | Some c => (db, Some c)
        | None =>
            match r_cart with
            | None =>
                let c := Cart.mk new_cart_id uid in
                (Db.with_cart db (Db.cart db ++ [c]), Some c)
            | Some _ => (db, None)
            end
        end in
      match the_cart with
      | None => (db1, [])
      | Some c =>
          let existingItem :=
            single
              (filter (fun i => String.eqb (CartItem.cart_id i) (Cart.id c)
                                && String.eqb (CartItem.product_id i)
                                     (Product.id product))
                 (Db.cart_items db1)) in
          let db2 :=
            match existingItem with
            | Some e =>
                Db.commit r_item db1
                  (Db.with_cart_items db1
                     (update_where
                        (fun i => String.eqb (CartItem.id i) (CartItem.id e))
                        (fun i => CartItem.set_quantity i
                                    (CartItem.quantity e + 1)%Z)
                        (Db.cart_items db1)))
            | None =>
                Db.commit r_item db1
                  (Db.with_cart_items db1
                     (Db.cart_items db1
                      ++ [CartItem.mk new_item_id (Cart.id c)
                            (Product.id product) 1%Z]))
            end in
          (db2, [toast_info "Added to cart" (Product.name product)])
      end
  end.

(** The quantity stored for [product] in the cart of [uid], when the user
    has one cart and the product one line in it. *)
Definition stored_quantity (uid : string) (product : Product.t) (db : Db.t)
  : option Z :=
  match single (filter (fun c => String.eqb (Cart.user_id c) uid) (Db.cart db)) with
  | None => None
  | Some c =>
      match single
              (filter (fun i => String.eqb (CartItem.cart_id i) (Cart.id c)
                                && String.eqb (CartItem.product_id i)
                                     (Product.id product))
                 (Db.cart_items db)) with
      | None => None
      | Some e => Some (CartItem.quantity e)
      end
  end.

End HomePage.

(** The product card offers its add-to-cart button only when this is false. *)
Definition isOutOfStock (product : Product.t) : bool :=
  (Product.stock_quantity product <=? 0)%Z.

(** ** The admin order page (AdminOrders) *)

Module AdminOrders.

Record State : Type := mk {
  orders : list Order.t;
  selectedOrder : option Order.t;
  delivery : option Delivery.t;
  payments : list Payment.t;
  refundAmount : string;
  refundReason : string;
  refundDialogOpen : bool;
  isUpdating : bool;
  isUpdatingDelivery : bool;
  isRefunding : bool
}.

Definition Outcome : Type := (Db.t * State * list Toast)%type.

Definition setOrders (s : State) (l : list Order.t) : State :=
  mk l (selectedOrder s) (delivery s) (payments s) (refundAmount s)
     (refundReason s) (refundDialogOpen s) (isUpdating s)
     (isUpdatingDelivery s) (isRefunding s).

Definition setSelectedOrder (s : State) (o : option Order.t) : State :=
  mk (orders s) o (delivery s) (payments s) (refundAmount s)
     (refundReason s) (refundDialogOpen s) (isUpdating s)
     (isUpdatingDelivery s) (isRefunding s).

Definition setDelivery (s : State) (d : option Delivery.t) : State :=
  mk (orders s) (selectedOrder s) d (payments s) (refundAmount s)
     (refundReason s) (refundDialogOpen s) (isUpdating s)
     (isUpdatingDelivery s) (isRefunding s).

Definition setPayments (s : State) (l : list Payment.t) : State :=
  mk (orders s) (selectedOrder s) (delivery s) l (refundAmount s)
     (refundReason s) (refundDialogOpen s) (isUpdating s)
     (isUpdatingDelivery s) (isRefunding s).

Definition setRefundForm (s : State) (a r : string) (open : bool) : State :=
  mk (orders s) (selectedOrder s) (delivery s) (payments s) a r open
     (isUpdating s) (isUpdatingDelivery s) (isRefunding s).

Definition setIsUpdating (s : State) (b : bool) : State :=
  mk (orders s) (selectedOrder s) (delivery s) (payments s) (refundAmount s)
     (refundReason s) (refundDialogOpen s) b (isUpdatingDelivery s)
     (isRefunding s).

Definition setIsUpdatingDelivery (s : State) (b : bool) : State :=
  mk (orders s) (selectedOrder s) (delivery s) (payments s) (refundAmount s)
     (refundReason s) (refundDialogOpen s) (isUpdating s) b (isRefunding s).

Definition setIsRefunding (s : State) (b : bool) : State :=
  mk (orders s) (selectedOrder s) (delivery s) (payments s) (refundAmount s)
     (refundReason s) (refundDialogOpen s) (isUpdating s)
     (isUpdatingDelivery s) b.

(** [fetchOrders()]: the page's list is read again from the store (the
    ordering by creation date is not modelled). *)
Definition fetchOrders (db : Db.t) (s : State) : State :=
  setOrders s (Db.orders db).

(** [fetchOrderDetails(orderId)]: the delivery and the payments of the order
    are read again from the store. *)
Definition fetchOrderDetails (orderId : string) (db : Db.t) (s : State) : State :=
  setPayments
    (setDelivery s
       (single (filter (fun d => String.eqb (Delivery.order_id d) orderId)
                  (Db.deliveries db))))
    (filter (fun p => String.eqb (Payment.order_id p) orderId) (Db.payments db)).

(** [handleStatusUpdate(newStatus)]. *)
Definition handleStatusUpdate (newStatus : OrderStatus) (r : Response)
  (db : Db.t) (s : State) : Outcome :=
  match selectedOrder s with
  | None => (db, s, [])
  | Some o =>
      match r with
      | Some message => (db, setIsUpdating s false, [toast_error message])
      | None =>
          let db' :=
            Db.with_orders db
              (update_where (fun x => String.eqb (Order.id x) (Order.id o))
                 (fun x => Order.set_status x newStatus) (Db.orders db)) in
          (db',
           setIsUpdating
             (fetchOrders db'
                (setSelectedOrder s (Some (Order.set_status o newStatus))))
             false,
           [toast_info "Status updated" ""])
      end
  end.

(** One entry [key: value] of [updateData] written into a delivery row.
    The page edits these columns only; other keys leave the modelled
    columns as they are. *)
Definition assign (d : Delivery.t) (kv : string * string) : Delivery.t :=
  let '(key, v) := kv in
  if String.eqb key "status" then
    Delivery.mk (Delivery.id d) (Delivery.order_id d) v
      (Delivery.partner_name d) (Delivery.tracking_number d)
      (Delivery.tracking_url d) (Delivery.delivered_at d) (Delivery.is_cod d)
      (Delivery.cod_amount d) (Delivery.cod_collected d)
  else if String.eqb key "partner_name" then
    Delivery.mk (Delivery.id d) (Delivery.order_id d) (Delivery.status d)
      (Some v) (Delivery.tracking_number d)
      (Delivery.tracking_url d) (Delivery.delivered_at d) (Delivery.is_cod d)
      (Delivery.cod_amount d) (Delivery.cod_collected d)
  else if String.eqb key "tracking_number" then
    Delivery.mk (Delivery.id d) (Delivery.order_id d) (Delivery.status d)
      (Delivery.partner_name d) (Some v)
      (Delivery.tracking_url d) (Delivery.delivered_at d) (Delivery.is_cod d)
      (Delivery.cod_amount d) (Delivery.cod_collected d)
  else if String.eqb key "tracking_url" then
    Delivery.mk (Delivery.id d) (Delivery.order_id d) (Delivery.status d)
      (Delivery.partner_name d) (Delivery.tracking_number d)
      (Some v) (Delivery.delivered_at d) (Delivery.is_cod d)
      (Delivery.cod_amount d) (Delivery.cod_collected d)
  else if String.eqb key "delivered_at" then
    Delivery.mk (Delivery.id d) (Delivery.order_id d) (Delivery.status d)
      (Delivery.partner_name d) (Delivery.tracking_number d)
      (Delivery.tracking_url d) (Some v) (Delivery.is_cod d)
      (Delivery.cod_amount d) (Delivery.cod_collected d)
  else d.

(** [{ ...delivery, ...updateData }] *)
Definition merge (d : Delivery.t) (updateData : list (string * string))
  : Delivery.t :=
  fold_left assign updateData d.

(** The object [updateData] of handleDeliveryUpdate; [now] is
    [new Date().toISOString()]. *)
Definition updateData_of (field value now : string) : list (string * string) :=
  if String.eqb field "status" && String.eqb value "delivered"
  then [(field, value); ("delivered_at", now)]
  else [(field, value)].

(** [handleDeliveryUpdate(field, value)]. *)
Definition handleDeliveryUpdate (field value : string) (now : string)
  (r : Response) (db : Db.t) (s : State) : Outcome :=
  match delivery s with
  | None => (db, s, [])
  | Some d =>
      let updateData := updateData_of field value now in
      match r with
      | Some message =>
          (db, setIsUpdatingDelivery s false, [toast_error message])
      | None =>
          (Db.with_deliveries db
             (update_where
                (fun x => String.eqb (Delivery.id x) (Delivery.id d))
                (fun x => merge x updateData) (Db.deliveries db)),
           setIsUpdatingDelivery (setDelivery s (Some (merge d updateData))) false,
           [toast_info "Delivery updated" ""])
      end
  end.

(** The row inserted by handleRefund; [Number] is the conversion of the
    text of the amount field to a number. *)
Definition refund_row (Number : string -> Q) (new_id : string) (o : Order.t)
  (s : State) : Payment.t :=
  Payment.mk new_id (Order.id o)
    (- Number (refundAmount s))
    (or_default (Order.payment_method o) "online")
    PS_refunded
    (Some (Number (refundAmount s)))
    (or_null (refundReason s)).

(** [handleRefund()]: [r_insert] answers the insert into [payments], which
    is inspected, [r_update] the update of the order, which is not. *)
Definition handleRefund (Number : string -> Q) (new_id : string)
  (r_insert r_update : Response) (db : Db.t) (s : State) : Outcome :=
  match selectedOrder s with
  | None => (db, s, [])
  | Some o =>
      if is_empty (refundAmount s) then (db, s, [])
      else
        match r_insert with
        | Some message => (db, setIsRefunding s false, [toast_error message])
        | None =>
            let db1 :=
              Db.with_payments db
                (Db.payments db ++ [refund_row Number new_id o s]) in
            let db2 :=
              Db.commit r_update db1
                (Db.with_orders db1
                   (update_where
                      (fun x => String.eqb (Order.id x) (Order.id o))
                      (fun x => Order.set_payment_status x PS_refunded)
                      (Db.orders db1))) in
            (db2,
             setIsRefunding
               (fetchOrders db2
                  (fetchOrderDetails (Order.id o) db2
                     (setRefundForm
                        (setSelectedOrder s
                           (Some (Order.set_payment_status o PS_refunded)))
                        "" "" false)))
               false,
             [toast_info "Refund processed" ""])
        end
  end.

(** The payment-status selector shown for cash-on-delivery orders
    ([onValueChange]); [r_order] answers the update of the order and
    [r_payment] the update of the payment entry, neither is inspected. *)
Definition onPaymentStatusChange (val : PaymentStatus)
  (r_order r_payment : Response) (db : Db.t) (s : State) : Outcome :=
  match selectedOrder s with
  | None => (db, s, [])
  | Some o =>
      match Order.payment_method o with
      | Some "cod" =>
          let db1 :=
            Db.commit r_order db
              (Db.with_orders db
                 (update_where
                    (fun x => String.eqb (Order.id x) (Order.id o))
                    (fun x => Order.set_payment_status x val)
                    (Db.orders db))) in
          let paymentRecord :=
            single
              (filter (fun p => String.eqb (Payment.order_id p) (Order.id o)
                                && String.eqb (Payment.method p) "cod")
                 (Db.payments db1)) in
          let db2 :=
            match paymentRecord with
            | Some p =>
                Db.commit r_payment db1
                  (Db.with_payments db1
                     (update_where
                        (fun x => String.eqb (Payment.id x) (Payment.id p))
                        (fun x => Payment.set_status x val)
                        (Db.payments db1)))
            | None => db1
            end in
          (db2,
           fetchOrders db2
             (setSelectedOrder s (Some (Order.set_payment_status o val))),
           [toast_info "Payment status updated" ""])
      | _ => (db, s, [])
      end
  end.

(** [getDeliveryProgress()], a percentage. *)
Definition getDeliveryProgress (s : State) : Q :=
  match delivery s with
  | None => 0
  | Some d =>
      let statusIndex := indexOf DELIVERY_STATUSES (Delivery.status d) in
      (inject_Z (statusIndex + 1)
       / inject_Z (Z.of_nat (List.length DELIVERY_STATUSES))) * 100
  end.

(** The refunds recorded for an order: the sum of [refund_amount] over its
    ledger entries. *)
Definition refunded_sum (orderId : string) (ledger : list Payment.t) : Q :=
  fold_right
    (fun p acc =>
       if String.eqb (Payment.order_id p) orderId
       then match Payment.refund_amount p with
            | Some a => a + acc
            | None => acc
            end
       else acc)
    0 ledger.

End AdminOrders.

(** ** The lifecycles as the specification words them *)

(** The legal edges of the order lifecycle: new, confirmed, packed, shipped,
    delivered in this order, one step at a time; cancelled and returned from
    any state that is not terminal; nothing out of delivered, cancelled or
    returned. *)
Definition order_edge_allowed (from to : OrderStatus) : bool :=
  match from, to with
  | OS_new, OS_confirmed
  | OS_confirmed, OS_packed
  | OS_packed, OS_shipped
  | OS_shipped, OS_delivered => true
  | (OS_new | OS_confirmed | OS_packed | OS_shipped),
    (OS_cancelled | OS_returned) => true
  | _, _ => false
  end.

(** The terminal states of a delivery in the specification. *)
Definition delivery_terminal (status : string) : bool :=
  String.eqb status "delivered" || String.eqb status "failed".

(** ** A conversion for amount fields and sample data *)

Definition digit_of (c : ascii) : option Z :=
  let n := nat_of_ascii c in
  if (48 <=? n)%nat && (n <=? 57)%nat then Some (Z.of_nat (n - 48)) else None.

Fixpoint digits_value (s : string) (acc : Z) : option Z :=
  match s with
  | EmptyString => Some acc
  | String c s' =>
      match digit_of c with
      | Some d => digits_value s' (10 * acc + d)%Z
      | None => None
      end
  end.

(** [Number] on the texts a numeric field yields when whole amounts are
    typed: an optional minus sign and decimal digits.  Other texts, which
    JavaScript maps to fractions or NaN, are outside this sample and read 0. *)
Definition Number_of_digits (s : string) : Q :=
  match s with
  | String "-" s' =>
      match digits_value s' 0%Z with
      | Some n => inject_Z (- n)
      | None => 0
      end
  | _ =>
      match digits_value s 0%Z with
      | Some n => inject_Z n
      | None => 0
      end
  end.

Definition empty_db : Db.t := Db.mk [] [] [] [] [] [].

Definition sample_order (st : OrderStatus) (method : string) : Order.t :=
  Order.mk "o1" "ORD-1" st PS_pending (Some method) 1000.

Definition sample_delivery (status : string) (at_ : option string) : Delivery.t :=
  Delivery.mk "d1" "o1" status None None None at_ false 0 false.

Definition admin_state (o : Order.t) (d : option Delivery.t) (amount : string)
  : AdminOrders.State :=
  AdminOrders.mk [o] (Some o) d [] amount "" true false false false.

Definition sample_product (price : Q) (stock : Z) : Product.t :=
  Product.mk "p1" "Lamp" price stock.

Definition sample_line (price : Q) (qty stock : Z) : CartLine.t :=
  CartLine.mk "i1" "c1" "p1" qty (sample_product price stock).

Definition cart_state (items : list CartLine.t) (code : string)
  (c : option Coupon.t) : CartPage.State :=
  CartPage.mk items code c false false.

(** The three components of what a handler returns. *)
Definition out_db {S : Type} (o : Db.t * S * list Toast) : Db.t := fst (fst o).
Definition out_state {S : Type} (o : Db.t * S * list Toast) : S := snd (fst o).
Definition out_toasts {S : Type} (o : Db.t * S * list Toast) : list Toast := snd o.

(** What one accepted call [handleDeliveryUpdate field value] at time [now]
    makes of a delivery [x]: the status is the value when the field is the
    status, and [delivered_at] is the time of the call exactly when the
    status is set to delivered. *)
Definition written_as (field value now : string) (x x' : Delivery.t) : Prop :=
  (field = "status" -> Delivery.status x' = value)
  /\ (field = "status" /\ value = "delivered" ->
      Delivery.delivered_at x' = Some now)
  /\ (~ (field = "status" /\ value = "delivered") ->
      Delivery.delivered_at x' = Delivery.delivered_at x)
  /\ Delivery.id x' = Delivery.id x.

(** The fields the order page passes to handleDeliveryUpdate. *)
Definition edited_fields : list string :=
  ["status"; "partner_name"; "tracking_number"; "tracking_url"].

(** Prices and quantities of a cart are not negative. *)
Definition items_nonneg (items : list CartLine.t) : Prop :=
  Forall (fun i => 0 <= Product.price (CartLine.product i)
                   /\ (0 <= CartLine.quantity i)%Z) items.

(** One refund as the operator makes it: the amount is typed into the field
    of the open dialog ([setRefundAmount]), then the refund is processed. *)
Record RefundCall : Type := mkRefundCall {
  typed_amount : string;
  entry_id : string;
  insert_answer : Response;
  update_answer : Response
}.

Definition refund_call (Number : string -> Q) (c : RefundCall)
  (st : Db.t * AdminOrders.State) : Db.t * AdminOrders.State :=
  let s := AdminOrders.setRefundForm (snd st) (typed_amount c)
             (AdminOrders.refundReason (snd st)) true in
  let out := AdminOrders.handleRefund Number (entry_id c) (insert_answer c)
               (update_answer c) (fst st) s in
  (out_db out, out_state out).

(** A sequence of refund calls against the selected order. *)
Definition refund_calls (Number : string -> Q) (calls : list RefundCall)
  (st : Db.t * AdminOrders.State) : Db.t * AdminOrders.State :=
  fold_left (fun st c => refund_call Number c st) calls st.

(** The sum of the amounts typed in a sequence of calls. *)
Definition typed_total (Number : string -> Q) (calls : list RefundCall) : Q :=
  fold_right (fun c acc => Number (typed_amount c) + acc) 0 calls.

(** A call the page lets through and the store accepts, with an amount
    between 0 (excluded) and the total of the order [o]. *)
Definition accepted_within_total (Number : string -> Q) (o : Order.t)
  (c : RefundCall) : Prop :=
  insert_answer c = None
  /\ is_empty (typed_amount c) = false
  /\ 0 < Number (typed_amount c)
  /\ Number (typed_amount c) <= Order.total o.

(** ** Further handlers of the cart page, the home page and the header *)

(** [removeItem(itemId)] of the cart page; [r] answers the delete, which the
    page does not inspect. *)
Definition removeItem (itemId : string) (r : Response) (db : Db.t)
  (s : CartPage.State) : CartPage.Outcome :=
  (Db.commit r db
     (Db.with_cart_items db
        (filter (fun i => negb (String.eqb (CartItem.id i) itemId))
           (Db.cart_items db))),
   CartPage.setCartItems s
     (filter (fun i => negb (String.eqb (CartLine.id i) itemId))
        (CartPage.cartItems s)),
   [toast_info "Removed" "Item removed from cart"]).

(** The minus button of a cart line: disabled when the quantity is at most
    1, else [updateQuantity(item.id, item.quantity - 1)]. *)
Definition clickMinus (item : CartLine.t) (r : Response) (db : Db.t)
  (s : CartPage.State) : CartPage.Outcome :=
  if (CartLine.quantity item <=? 1)%Z then (db, s, [])
  else CartPage.updateQuantity (CartLine.id item)
         (CartLine.quantity item - 1)%Z r db s.

(** The plus button of a cart line: disabled when the quantity has reached
    the stock, else [updateQuantity(item.id, item.quantity + 1)]. *)
Definition clickPlus (item : CartLine.t) (r : Response) (db : Db.t)
  (s : CartPage.State) : CartPage.Outcome :=
  if (Product.stock_quantity (CartLine.product item) <=? CartLine.quantity item)%Z
  then (db, s, [])
  else CartPage.updateQuantity (CartLine.id item)
         (CartLine.quantity item + 1)%Z r db s.

(** Every line of the cart holds at least 1 and at most the stock of its
    product. *)
Definition within_stock (items : list CartLine.t) : Prop :=
  Forall (fun i => (1 <= CartLine.quantity i)%Z
                   /\ (CartLine.quantity i
                       <= Product.stock_quantity (CartLine.product i))%Z)
    items.

(** The amount of one cart line. *)
Definition line_amount (i : CartLine.t) : Q :=
  Product.price (CartLine.product i) * inject_Z (CartLine.quantity i).

(** [fetchCartCount()] of the header: the number of lines of the cart of
    the signed-in user; the badge keeps its value when there is no user or
    no single cart. *)
Definition fetchCartCount (user : option string) (db : Db.t) (cartCount : Z)
  : Z :=
  match user with
  | None => cartCount
  | Some uid =>
      match single (filter (fun c => String.eqb (Cart.user_id c) uid)
                      (Db.cart db)) with
      | None => cartCount
      | Some c =>
          Z.of_nat
            (List.length
               (filter (fun i => String.eqb (CartItem.cart_id i) (Cart.id c))
                  (Db.cart_items db)))
      end
  end.

(** Repeated clicks on the add-to-cart button of one product, every write
    accepted; each click comes with the identifiers the store would give to
    a cart and to a line inserted by it. *)
Fixpoint add_each (ids : list (string * string)) (uid : string)
  (product : Product.t) (db : Db.t) : Db.t :=
  match ids with
  | [] => db
  | (new_cart_id, new_item_id) :: ids' =>
      add_each ids' uid product
        (fst (HomePage.handleAddToCart (Some uid) product None None
                new_cart_id new_item_id db))
  end.

(** The banner slider of the home page: the right and the left arrow, for a
    slider of [n] banners showing the banner [prev]; [%] is the remainder of
    JavaScript. *)
Definition nextBanner (n prev : Z) : Z := Z.rem (prev + 1) n.
Definition prevBanner (n prev : Z) : Z := Z.rem (prev - 1 + n) n.

(** ** Further code of the admin order page *)

(** One edit of the delivery form: the field, the value typed or chosen,
    the time of the call and the answer of the store. *)
Record DeliveryEdit : Type := mkDeliveryEdit {
  edit_field : string;
  edit_value : string;
  edit_time : string;
  edit_answer : Response
}.

Definition delivery_edit (e : DeliveryEdit) (st : Db.t * AdminOrders.State)
  : Db.t * AdminOrders.State :=
  let out := AdminOrders.handleDeliveryUpdate (edit_field e) (edit_value e)
               (edit_time e) (edit_answer e) (fst st) (snd st) in
  (out_db out, out_state out).

(** A sequence of edits of the delivery form. *)
Definition delivery_edits (edits : list DeliveryEdit)
  (st : Db.t * AdminOrders.State) : Db.t * AdminOrders.State :=
  fold_left (fun st e => delivery_edit e st) edits st.

(** The two facts kept by the delivery form: [delivered_at] once set stays
    set, and a delivery shown as delivered has its [delivered_at]. *)
Definition delivered_at_kept (d d' : Delivery.t) : Prop :=
  Delivery.id d' = Delivery.id d
  /\ (Delivery.delivered_at d <> None -> Delivery.delivered_at d' <> None)
  /\ ((Delivery.status d = "delivered" -> Delivery.delivered_at d <> None) ->
      Delivery.status d' = "delivered" -> Delivery.delivered_at d' <> None).

(** [handleRowClick(order)]: the order is selected and its details are
    read from the store. *)
Definition handleRowClick (order : Order.t) (db : Db.t) (s : AdminOrders.State)
  : AdminOrders.State :=
  AdminOrders.fetchOrderDetails (Order.id order) db
    (AdminOrders.setSelectedOrder s (Some order)).

(** [handleBack()]: back to the list of orders. *)
Definition handleBack (s : AdminOrders.State) : AdminOrders.State :=
  AdminOrders.setPayments
    (AdminOrders.setDelivery (AdminOrders.setSelectedOrder s None) None) [].

(** The entries of the refund history card: the payments of the page whose
    status is refunded. *)
Definition refund_history (s : AdminOrders.State) : list Payment.t :=
  filter (fun p => match Payment.status p with
                   | PS_refunded => true
                   | _ => false
                   end)
    (AdminOrders.payments s).

(** ASCII part of [String.prototype.toLowerCase]. *)
Definition lower_ascii (c : ascii) : ascii :=
  let n := nat_of_ascii c in
  if (65 <=? n)%nat && (n <=? 90)%nat then ascii_of_nat (n + 32) else c.

Fixpoint toLowerCase (s : string) : string :=
  match s with
  | EmptyString => EmptyString
  | String c s' => String (lower_ascii c) (toLowerCase s')
  end.

(** [s.startsWith(p)]. *)
Definition startsWith (s p : string) : bool := String.prefix p s.

(** [s.includes(sub)]: [sub] starts at some position of [s]. *)
Fixpoint includes (s sub : string) : bool :=
  startsWith s sub
  || match s with
     | EmptyString => false
     | String _ s' => includes s' sub
     end.

(** [filteredOrders]: the orders whose number contains the search text,
    letter case apart. *)
Definition filteredOrders (orders : list Order.t) (searchQuery : string)
  : list Order.t :=
  filter (fun o => includes (toLowerCase (Order.order_number o))
                     (toLowerCase searchQuery))
    orders.

(** ** The admin sidebar (AdminSidebar) *)

Record MenuItem : Type := mkMenuItem {
  path : string;
  label : string;
  exact_match : bool
}.

(** The constant [menuItems]; [exact] is set on the dashboard only. *)
Definition menuItems : list MenuItem :=
  [mkMenuItem "/admin" "Dashboard" true;
   mkMenuItem "/admin/storefront" "Storefront Builder" false;
   mkMenuItem "/admin/banners" "Banners & Media" false;
   mkMenuItem "/admin/products" "Products" false;
   mkMenuItem "/admin/categories" "Categories" false;
   mkMenuItem "/admin/offers" "Offers" false;
   mkMenuItem "/admin/coupons" "Coupons" false;
   mkMenuItem "/admin/orders" "Orders" false;
   mkMenuItem "/admin/payments" "Payments" false;
   mkMenuItem "/admin/expenses" "Expenses" false;
   mkMenuItem "/admin/customers" "Customers" false;
   mkMenuItem "/admin/reports" "Reports" false;
   mkMenuItem "/admin/settings" "Settings" false].

(** [isActive(path, exact)] at the location [pathname]. *)
Definition isActive (pathname : string) (path : string) (exact : bool) : bool :=
  if exact then String.eqb pathname path
  else startsWith pathname path && negb (String.eqb path "/admin").

(** The flag [active] computed for each item of the menu. *)
Definition item_active (pathname : string) (item : MenuItem) : bool :=
  if exact_match item then String.eqb pathname (path item)
  else isActive pathname (path item) (exact_match item).

(** ** The settings page (AdminSettings) and the settings read by the header *)

(** A row of [store_settings]: a key and its value, a JSON object kept
    abstract.  The identifier of the row is read by no code here. *)
Module Setting.
Record t (Value : Type) : Type := mk {
  key : string;
  value : Value
}.
Arguments mk {Value}.
Arguments key {Value}.
Arguments value {Value}.
End Setting.

Module AdminSettings.

Record State (Value : Type) : Type := mk {
  storeInfo : Value;
  theme : Value;
  checkout : Value;
  social : Value;
  razorpay : Value;
  announcement : Value;
  isLoading : bool;
  isSaving : option string
}.
Arguments mk {Value}.
Arguments storeInfo {Value}.
Arguments theme {Value}.
Arguments checkout {Value}.
Arguments social {Value}.
Arguments razorpay {Value}.
Arguments announcement {Value}.
Arguments isLoading {Value}.
Arguments isSaving {Value}.

(** The [switch] of fetchSettings on one row. *)
Definition apply_row {Value : Type} (s : State Value) (item : Setting.t Value)
  : State Value :=
  let v := Setting.value item in
  let k := Setting.key item in
  if String.eqb k "store_info" then
    mk v (theme s) (checkout s) (social s) (razorpay s) (announcement s)
       (isLoading s) (isSaving s)
  else if String.eqb k "theme" then
    mk (storeInfo s) v (checkout s) (social s) (razorpay s) (announcement s)
       (isLoading s) (isSaving s)
  else if String.eqb k "checkout" then
    mk (storeInfo s) (theme s) v (social s) (razorpay s) (announcement s)
       (isLoading s) (isSaving s)
  else if String.eqb k "social_links" then
    mk (storeInfo s) (theme s) (checkout s) v (razorpay s) (announcement s)
       (isLoading s) (isSaving s)
  else if String.eqb k "razorpay" then
    mk (storeInfo s) (theme s) (checkout s) (social s) v (announcement s)
       (isLoading s) (isSaving s)
  else if String.eqb k "announcement" then
    mk (storeInfo s) (theme s) (checkout s) (social s) (razorpay s) v
       (isLoading s) (isSaving s)
  else s.

Definition setIsLoading {Value : Type} (s : State Value) (b : bool)
  : State Value :=
  mk (storeInfo s) (theme s) (checkout s) (social s) (razorpay s)
     (announcement s) b (isSaving s).

Definition setIsSaving {Value : Type} (s : State Value) (k : option string)
  : State Value :=
  mk (storeInfo s) (theme s) (checkout s) (social s) (razorpay s)
     (announcement s) (isLoading s) k.

(** [fetchSettings()]; [data] is what the read returns, [None] on an
    error. *)
Definition fetchSettings {Value : Type} (data : option (list (Setting.t Value)))
  (s : State Value) : State Value :=
  match data with
  | Some rows => setIsLoading (fold_left apply_row rows s) false
  | None => setIsLoading s false
  end.

(** [handleSave(key, value)]; [r] answers the update or the insert. *)
Definition handleSave {Value : Type} (k : string) (v : Value) (r : Response)
  (rows : list (Setting.t Value)) (s : State Value)
  : list (Setting.t Value) * State Value * list Toast :=
  let existing :=
    single (filter (fun x => String.eqb (Setting.key x) k) rows) in
  let written :=
    match existing with
    | Some _ =>
        update_where (fun x => String.eqb (Setting.key x) k)
          (fun x => Setting.mk (Setting.key x) v) rows
    | None => (rows ++ [Setting.mk k v])%list
    end in
  match r with
  | Some message => (rows, setIsSaving s None, [toast_error message])
  | None =>
      (written, setIsSaving s None,
       [toast_info "Saved" "Settings saved successfully"])
  end.

(** The field of the page that holds the setting of a key. *)
Definition field_of {Value : Type} (k : string) (s : State Value)
  : option Value :=
  if String.eqb k "store_info" then Some (storeInfo s)
  else if String.eqb k "theme" then Some (theme s)
  else if String.eqb k "checkout" then Some (checkout s)
  else if String.eqb k "social_links" then Some (social s)
  else if String.eqb k "razorpay" then Some (razorpay s)
  else if String.eqb k "announcement" then Some (announcement s)
  else None.

End AdminSettings.

(** The keys the settings page reads and writes. *)
Definition setting_keys : list string :=
  ["store_info"; "theme"; "checkout"; "social_links"; "razorpay";
   "announcement"].

(** The read of one setting by the header:
    [.select('value').eq('key', k).single()]. *)
Definition header_setting {Value : Type} (k : string)
  (rows : list (Setting.t Value)) : option Value :=
  option_map Setting.value
    (single (filter (fun x => String.eqb (Setting.key x) k) rows)).

(** What reading one more row makes of the value held for the key [k]. *)
Definition setting_step {Value : Type} (k : string) (acc : option Value)
  (item : Setting.t Value) : option Value :=
  if String.eqb (Setting.key item) k then Some (Setting.value item) else acc.

(** ** The dashboard (AdminDashboard) *)

(** An order row with the column the dashboard reads besides those of the
    order page: [created_at], as the time value of [new Date(...)]. *)
Module DashboardOrder.
Record t : Type := mk {
  order : Order.t;
  created_at : Z
}.
End DashboardOrder.

(** A product row with its [low_stock_threshold]. *)
Module DashboardProduct.
Record t : Type := mk {
  product : Product.t;
  low_stock_threshold : Z
}.
End DashboardProduct.

Record DashboardStats : Type := mkDashboardStats {
  todaySales : Q;
  totalOrders : nat;
  newOrders : nat;
  processingOrders : nat;
  deliveredOrders : nat;
  totalProducts : nat;
  lowStockProducts : nat;
  totalCustomers : nat
}.

(** [data || []] *)
Definition or_empty {A : Type} (data : option (list A)) : list A :=
  match data with
  | Some l => l
  | None => []
  end.

Definition is_status (st : OrderStatus) (o : DashboardOrder.t) : bool :=
  match Order.status (DashboardOrder.order o), st with
  | OS_new, OS_new | OS_confirmed, OS_confirmed | OS_packed, OS_packed
  | OS_shipped, OS_shipped | OS_delivered, OS_delivered
  | OS_cancelled, OS_cancelled | OS_returned, OS_returned => true
  | _, _ => false
  end.

Definition is_low_stock (p : DashboardProduct.t) : bool :=
  (Product.stock_quantity (DashboardProduct.product p)
   <=? DashboardProduct.low_stock_threshold p)%Z.

(** [fetchDashboardData()]: the statistics, the recent orders and the
    low-stock products shown; [today] is the time value of today at 0:00,
    the three lists are what the reads return. *)
Definition fetchDashboardData (today : Z)
  (orders : option (list DashboardOrder.t))
  (products : option (list DashboardProduct.t))
  (customers : option (list string))
  : DashboardStats * list DashboardOrder.t * list DashboardProduct.t :=
  let ordersData := or_empty orders in
  let productsData := or_empty products in
  let customersData := or_empty customers in
  let todayOrders :=
    filter (fun o => (today <=? DashboardOrder.created_at o)%Z) ordersData in
  let todaySales :=
    fold_left (fun sum o => sum + Order.total (DashboardOrder.order o))
      todayOrders 0 in
  let newOrders := List.length (filter (is_status OS_new) ordersData) in
  let processingOrders :=
    List.length
      (filter (fun o => is_status OS_confirmed o || is_status OS_packed o)
         ordersData) in
  let deliveredOrders :=
    List.length (filter (is_status OS_delivered) ordersData) in
  let lowStock := filter is_low_stock productsData in
  (mkDashboardStats todaySales (List.length ordersData) newOrders
     processingOrders deliveredOrders (List.length productsData)
     (List.length lowStock) (List.length customersData),
   firstn 5 ordersData,
   firstn 5 lowStock).

(** ** The product card (ProductCard) *)

(** [Math.round(x)]: the nearest integer, halves upwards. *)
Definition Math_round (x : Q) : Z := Qfloor (x + (1 # 2)).

(** A product with its list price [mrp], which may be null. *)
Module CardProduct.
Record t : Type := mk {
  product : Product.t;
  mrp : option Q
}.
End CardProduct.

Record ProductOffer : Type := mkProductOffer {
  discountedPrice : Q;
  discountAmount : Q;
  discountLabel : string
}.

(** [product.mrp && product.mrp > product.price] *)
Definition mrp_above_price (p : CardProduct.t) : bool :=
  match CardProduct.mrp p with
  | Some m => negb (Qeq_bool m 0)
              && negb (Qle_bool m (Product.price (CardProduct.product p)))
  | None => false
  end.

Definition displayPrice (p : CardProduct.t) (productOffer : option ProductOffer)
  : Q :=
  match productOffer with
  | Some po => discountedPrice po
  | None => Product.price (CardProduct.product p)
  end.

Definition originalPrice (p : CardProduct.t) (productOffer : option ProductOffer)
  : option Q :=
  match productOffer with
  | Some _ => Some (Product.price (CardProduct.product p))
  | None => CardProduct.mrp p
  end.

Definition hasDiscount (p : CardProduct.t) (productOffer : option ProductOffer)
  : bool :=
  match productOffer with
  | Some po => negb (Qle_bool (discountAmount po) 0)
  | None => mrp_above_price p
  end.

(** The number of the label of the card:
    [Math.round(((mrp - price) / mrp) * 100)]. *)
Definition percent_off (price m : Q) : Z :=
  Math_round ((m - price) / m * 100).

(** * Properties *)

(** ** Updates by identifier *)

Section UpdateWhere.

Context {A : Type} (p : A -> bool) (f : A -> A).

Lemma update_where_length (l : list A) :
  List.length (update_where p f l) = List.length l.
Proof. unfold update_where. apply length_map. Qed.

Lemma update_where_key {K : Type} (key : A -> K) :
  (forall r, key (f r) = key r) ->
  forall l, map key (update_where p f l) = map key l.
Proof.
  intros Hkey l. induction l as [|r l IH]; simpl; [reflexivity|].
  rewrite IH. destruct (p r); [rewrite Hkey|]; reflexivity.
Qed.

Lemma update_where_hit (P : A -> Prop) :
  (forall r, p r = true -> P (f r)) ->
  forall l, Forall (fun x => p x = true -> P x) (update_where p f l).
Proof.
  intros Hf l. induction l as [|r l IH]; simpl; constructor; try exact IH.
  destruct (p r) eqn:E.
  - intros _. apply Hf, E.
  - intros E'. congruence.
Qed.

Lemma update_where_none (l : list A) :
  (forall r, In r l -> p r = false) -> update_where p f l = l.
Proof.
  induction l as [|r l IH]; simpl; intros H; [reflexivity|].
  rewrite (H r (or_introl eq_refl)). f_equal. apply IH.
  intros r' Hr'. apply H. right. exact Hr'.
Qed.

Lemma update_where_Forall2 (R : A -> A -> Prop) :
  (forall r, p r = true -> R r (f r)) ->
  forall l,
    Forall2 (fun x x' => if p x then R x x' else x' = x) l (update_where p f l).
Proof.
  intros Hf l. induction l as [|r l IH]; simpl; constructor; try exact IH.
  destruct (p r) eqn:E; [apply Hf, E | reflexivity].
Qed.

End UpdateWhere.

(** ** Order lifecycle *)

(** C1, as the specification states it, fails: an order that is delivered is
    put back to new.  The pair is not a legal edge, the store accepts the
    write, the handler reports success, and both the stored row and the
    selected order carry the new status. *)
Lemma handleStatusUpdate_delivered_to_new :
  let o := sample_order OS_delivered "cod" in
  let out := AdminOrders.handleStatusUpdate OS_new None
               (Db.with_orders empty_db [o]) (admin_state o None "") in
  order_edge_allowed OS_delivered OS_new = false
  /\ map Order.status (Db.orders (out_db out)) = [OS_new]
  /\ option_map Order.status (AdminOrders.selectedOrder (out_state out))
     = Some OS_new
  /\ out_toasts out = [toast_info "Status updated" ""].
Proof. repeat split. Qed.

(** C1, amended: the status update makes no check of the transition.  For
    every selected order and every target status, legal edge or not, an
    accepted write sets the status of the selected order and of every stored
    row of that identifier to the target and reports success; the status is
    left as it was only when the store rejects the write, which is reported
    as an error with the message of the store. *)
Theorem handleStatusUpdate_no_transition_check :
  forall (db : Db.t) (s : AdminOrders.State) (o : Order.t)
         (target : OrderStatus),
    AdminOrders.selectedOrder s = Some o ->
    (let out := AdminOrders.handleStatusUpdate target None db s in
     option_map Order.status (AdminOrders.selectedOrder (out_state out))
     = Some target
     /\ Forall (fun x => Order.id x = Order.id o -> Order.status x = target)
          (Db.orders (out_db out))
     /\ map Order.id (Db.orders (out_db out)) = map Order.id (Db.orders db)
     /\ out_toasts out = [toast_info "Status updated" ""])
    /\ (forall message,
          let out := AdminOrders.handleStatusUpdate target (Some message) db s in
          out_db out = db
          /\ AdminOrders.selectedOrder (out_state out) = Some o
          /\ out_toasts out = [toast_error message]).
Proof.
  intros db s o target Hsel. unfold AdminOrders.handleStatusUpdate.
  rewrite Hsel. split.
  - cbn. repeat split.
    + eapply Forall_impl;
        [| apply (update_where_hit
                    (fun x => String.eqb (Order.id x) (Order.id o))
                    (fun x => Order.set_status x target)
                    (fun x => Order.status x = target))].
      * intros x Hx Hid. apply Hx. apply String.eqb_eq. exact Hid.
      * intros r _. reflexivity.
    + apply update_where_key. intros r. reflexivity.
  - intros message. cbn. repeat split. exact Hsel.
Qed.

Lemma handleStatusUpdate_no_transition_check_witness :
  let o := sample_order OS_cancelled "online" in
  let db := Db.with_orders empty_db [o] in
  let s := admin_state o None "" in
  (let out := AdminOrders.handleStatusUpdate OS_shipped None db s in
   option_map Order.status (AdminOrders.selectedOrder (out_state out))
   = Some OS_shipped
   /\ Forall (fun x => Order.id x = Order.id o -> Order.status x = OS_shipped)
        (Db.orders (out_db out))
   /\ map Order.id (Db.orders (out_db out)) = map Order.id (Db.orders db)
   /\ out_toasts out = [toast_info "Status updated" ""])
  /\ (forall message,
        let out := AdminOrders.handleStatusUpdate OS_shipped (Some message) db s in
        out_db out = db
        /\ AdminOrders.selectedOrder (out_state out) = Some o
        /\ out_toasts out = [toast_error message]).
Proof.
  intros o db s.
  apply (handleStatusUpdate_no_transition_check db s o OS_shipped).
  reflexivity.
Defined.

(** ** Delivery tracking *)

Lemma merge_written_as (field value now : string) (x : Delivery.t) :
  In field edited_fields ->
  written_as field value now x
    (AdminOrders.merge x (AdminOrders.updateData_of field value now)).
Proof.
  unfold edited_fields, written_as, AdminOrders.updateData_of.
  intros [H | [H | [H | [H | []]]]]; subst field; cbn.
  - destruct (String.eqb value "delivered") eqn:E; cbn.
    + apply String.eqb_eq in E. intuition congruence.
    + apply String.eqb_neq in E. intuition congruence.
  - intuition congruence.
  - intuition congruence.
  - intuition congruence.
Qed.

(** C6, as the specification states it, fails: a delivery that is delivered
    is set back to picked, the write is accepted and reported as a success,
    and a second transition into delivered writes [delivered_at] again. *)
Lemma delivered_at_written_twice :
  let d := sample_delivery "pending" None in
  let out1 := AdminOrders.handleDeliveryUpdate "status" "delivered"
                "2026-03-01T10:00:00.000Z" None
                (Db.with_deliveries empty_db [d])
                (admin_state (sample_order OS_shipped "cod") (Some d) "") in
  let out2 := AdminOrders.handleDeliveryUpdate "status" "picked"
                "2026-03-02T10:00:00.000Z" None (out_db out1) (out_state out1) in
  let out3 := AdminOrders.handleDeliveryUpdate "status" "delivered"
                "2026-03-03T10:00:00.000Z" None (out_db out2) (out_state out2) in
  map Delivery.delivered_at (Db.deliveries (out_db out1))
  = [Some "2026-03-01T10:00:00.000Z"]
  /\ delivery_terminal "delivered" = true
  /\ map Delivery.status (Db.deliveries (out_db out2)) = ["picked"]
  /\ option_map Delivery.status (AdminOrders.delivery (out_state out2))
     = Some "picked"
  /\ out_toasts out2 = [toast_info "Delivery updated" ""]
  /\ map Delivery.delivered_at (Db.deliveries (out_db out3))
     = [Some "2026-03-03T10:00:00.000Z"]
  /\ option_map Delivery.delivered_at (AdminOrders.delivery (out_state out3))
     = Some (Some "2026-03-03T10:00:00.000Z").
Proof. repeat split. Qed.

(** C6, amended: for every delivery and each field the page edits, an
    accepted update sets [delivered_at] to the time of the call exactly when
    the field is the status and the value is delivered, and leaves it as it
    was otherwise; no transition is checked, so a status update is accepted
    from every current status, delivered included, and [delivered_at] is
    written again by each later transition into delivered.  The same holds
    of the stored rows of that identifier; other rows are untouched. *)
Theorem handleDeliveryUpdate_delivered_at :
  forall (db : Db.t) (s : AdminOrders.State) (d : Delivery.t)
         (field value now : string),
    AdminOrders.delivery s = Some d ->
    In field edited_fields ->
    let out := AdminOrders.handleDeliveryUpdate field value now None db s in
    (exists d', AdminOrders.delivery (out_state out) = Some d'
                /\ written_as field value now d d')
    /\ Forall2
         (fun x x' => if String.eqb (Delivery.id x) (Delivery.id d)
                      then written_as field value now x x' else x' = x)
         (Db.deliveries db) (Db.deliveries (out_db out))
    /\ out_toasts out = [toast_info "Delivery updated" ""].
Proof.
  intros db s d field value now Hd Hfield.
  unfold AdminOrders.handleDeliveryUpdate. rewrite Hd. cbn.
  split; [|split].
  - eexists. split; [reflexivity|]. apply merge_written_as, Hfield.
  - apply (update_where_Forall2
             (fun x => String.eqb (Delivery.id x) (Delivery.id d))
             (fun x => AdminOrders.merge x
                         (AdminOrders.updateData_of field value now))
             (written_as field value now)).
    intros r _. apply merge_written_as, Hfield.
  - reflexivity.
Qed.

Lemma handleDeliveryUpdate_delivered_at_witness :
  let d := sample_delivery "delivered" (Some "2026-03-01T10:00:00.000Z") in
  let db := Db.with_deliveries empty_db [d] in
  let s := admin_state (sample_order OS_shipped "cod") (Some d) "" in
  let out := AdminOrders.handleDeliveryUpdate "status" "in_transit"
               "2026-03-02T10:00:00.000Z" None db s in
  (exists d', AdminOrders.delivery (out_state out) = Some d'
              /\ written_as "status" "in_transit" "2026-03-02T10:00:00.000Z" d d')
  /\ Forall2
       (fun x x' => if String.eqb (Delivery.id x) (Delivery.id d)
                    then written_as "status" "in_transit"
                           "2026-03-02T10:00:00.000Z" x x'
                    else x' = x)
       (Db.deliveries db) (Db.deliveries (out_db out))
  /\ out_toasts out = [toast_info "Delivery updated" ""].
Proof.
  intros d db s.
  apply (handleDeliveryUpdate_delivered_at db s d "status" "in_transit"
           "2026-03-02T10:00:00.000Z").
  - reflexivity.
  - unfold edited_fields. simpl. left. reflexivity.
Defined.

(** C7, as the specification states it, fails: for a delivered delivery the
    progress is 500/6, about 83.3 per cent, not 100. *)
Lemma getDeliveryProgress_delivered_not_100 :
  let s := admin_state (sample_order OS_delivered "cod")
             (Some (sample_delivery "delivered" None)) "" in
  AdminOrders.getDeliveryProgress s == 250 # 3
  /\ ~ AdminOrders.getDeliveryProgress s == 100.
Proof. split; [reflexivity | intros H; discriminate H]. Qed.

(** C7, amended: for the status at position [i] of the list pending,
    assigned, picked, in_transit, delivered, failed, the progress is
    (i + 1) / 6 as a percentage; it is 250/3 (about 83.3) for delivered, and
    100 for failed and for no other status of the list. *)
Theorem getDeliveryProgress_by_position :
  forall (s : AdminOrders.State) (d : Delivery.t) (i : nat),
    AdminOrders.delivery s = Some d ->
    nth_error DELIVERY_STATUSES i = Some (Delivery.status d) ->
    AdminOrders.getDeliveryProgress s == inject_Z (Z.of_nat i + 1) / 6 * 100
    /\ (Delivery.status d = "delivered" ->
        AdminOrders.getDeliveryProgress s == 250 # 3)
    /\ (AdminOrders.getDeliveryProgress s == 100 <->
        Delivery.status d = "failed").
Proof.
  intros s d i Hd Hi. unfold AdminOrders.getDeliveryProgress. rewrite Hd.
  unfold DELIVERY_STATUSES in *.
  do 6 (destruct i as [|i];
        [ cbn in Hi; injection Hi as Hi; rewrite <- Hi; cbn;
          repeat split; try reflexivity; try discriminate;
          intros H; discriminate H
        | ]).
  cbn in Hi. destruct i; discriminate Hi.
Qed.

Lemma getDeliveryProgress_by_position_witness :
  let d := sample_delivery "in_transit" None in
  let s := admin_state (sample_order OS_shipped "cod") (Some d) "" in
  AdminOrders.getDeliveryProgress s == inject_Z (Z.of_nat 3 + 1) / 6 * 100
  /\ (Delivery.status d = "delivered" ->
      AdminOrders.getDeliveryProgress s == 250 # 3)
  /\ (AdminOrders.getDeliveryProgress s == 100 <->
      Delivery.status d = "failed").
Proof.
  intros d s.
  apply (getDeliveryProgress_by_position s d 3); reflexivity.
Defined.

(** ** Pricing *)

Lemma fold_subtotal_nonneg (items : list CartLine.t) :
  items_nonneg items ->
  forall acc, 0 <= acc ->
    0 <= fold_left
           (fun sum item =>
              sum + Product.price (CartLine.product item)
                    * inject_Z (CartLine.quantity item))
           items acc.
Proof.
  unfold items_nonneg. induction 1 as [|i items [Hp Hq] _ IH]; intros acc Hacc.
  - exact Hacc.
  - cbn. apply IH.
    assert (Hq' : 0 <= inject_Z (CartLine.quantity i)).
    { change 0 with (inject_Z 0). rewrite <- Zle_Qle. exact Hq. }
    pose proof (Qmult_le_0_compat _ _ Hp Hq'). lra.
Qed.



(** With a cap that is set and not zero, the percentage discount is the
    smaller of the percentage and the cap. *)
Lemma discount_capped_by_nonzero_max_discount :
  forall (s : CartPage.State) (c : Coupon.t) (m : Q),
    CartPage.appliedCoupon s = Some c ->
    Coupon.type c = percentage ->
    Coupon.max_discount c = Some m ->
    ~ m == 0 ->
    CartPage.discount s = Qmin (CartPage.subtotal s * Coupon.value c / 100) m
    /\ CartPage.discount s <= m.
Proof.
  intros s c m Hc Ht Hm Hnz. unfold CartPage.discount.
  rewrite Hc, Ht, Hm. cbn.
  destruct (Qeq_bool m 0) eqn:E.
  - apply Qeq_bool_iff in E. contradiction.
  - cbn. split; [reflexivity | apply Q.le_min_r].
Qed.




(** C4 on the code: a percentage coupon of 10 per cent whose max_discount is
    set to 0 is applied to a cart of 500; the cap 0 is read as no cap and
    the discount is 50, above max_discount. *)
Theorem discount_ignores_zero_max_discount :
  let zero := Coupon.mk "ZEROCAP" percentage 10 None (Some 0) true in
  let db := Db.mk [] [] [] [zero] [] [] in
  let s := out_state
             (CartPage.applyCoupon db
                (cart_state [sample_line 500 1 5] "zerocap" None)) in
  CartPage.appliedCoupon s = Some zero
  /\ CartPage.subtotal s == 500
  /\ CartPage.discount s == 50
  /\ ~ CartPage.discount s <= 0
  /\ ~ CartPage.discount s == Qmin (CartPage.subtotal s * 10 / 100) 0.
Proof.
  cbv zeta. repeat split; try reflexivity.
  - intros H. vm_compute in H. apply H. reflexivity.
  - intros H. vm_compute in H. discriminate H.
Qed.

(** C9: the four figures of the order summary are a function of the cart
    lines and of the applied coupon alone: two states of the page with the
    same lines and the same coupon give the same subtotal, discount,
    shipping charge and total, whatever their other fields hold.  The
    figures are values computed from the state; the computation has no
    store and no state among its results. *)
Theorem totals_deterministic :
  forall s1 s2 : CartPage.State,
    CartPage.cartItems s1 = CartPage.cartItems s2 ->
    CartPage.appliedCoupon s1 = CartPage.appliedCoupon s2 ->
    CartPage.totals s1 = CartPage.totals s2.
Proof.
  intros s1 s2 Hitems Hcoupon.
  unfold CartPage.totals, CartPage.total, CartPage.shippingCharge,
    CartPage.discount, CartPage.subtotal.
  rewrite Hitems, Hcoupon. reflexivity.
Qed.

Lemma totals_deterministic_witness :
  let c := Some (Coupon.mk "TEN" percentage 10 None (Some 40) true) in
  CartPage.totals (CartPage.mk [sample_line 500 1 5] "" c false false)
  = CartPage.totals (CartPage.mk [sample_line 500 1 5] "TEN" c true true).
Proof.
  intros c.
  apply (totals_deterministic
           (CartPage.mk [sample_line 500 1 5] "" c false false)
           (CartPage.mk [sample_line 500 1 5] "TEN" c true true));
    reflexivity.
Defined.

(** ** Refund ledger *)

Lemma refunded_sum_app (orderId : string) (l : list Payment.t) (p : Payment.t) :
  AdminOrders.refunded_sum orderId (l ++ [p])
  == AdminOrders.refunded_sum orderId l
     + AdminOrders.refunded_sum orderId [p].
Proof.
  induction l as [|x l IH].
  - cbn. destruct (String.eqb (Payment.order_id p) orderId);
      [destruct (Payment.refund_amount p)|]; lra.
  - change (AdminOrders.refunded_sum orderId ((x :: l) ++ [p]))
      with (if String.eqb (Payment.order_id x) orderId
            then match Payment.refund_amount x with
                 | Some a => a + AdminOrders.refunded_sum orderId (l ++ [p])
                 | None => AdminOrders.refunded_sum orderId (l ++ [p])
                 end
            else AdminOrders.refunded_sum orderId (l ++ [p])).
    change (AdminOrders.refunded_sum orderId (x :: l))
      with (if String.eqb (Payment.order_id x) orderId
            then match Payment.refund_amount x with
                 | Some a => a + AdminOrders.refunded_sum orderId l
                 | None => AdminOrders.refunded_sum orderId l
                 end
            else AdminOrders.refunded_sum orderId l).
    destruct (String.eqb (Payment.order_id x) orderId);
      [destruct (Payment.refund_amount x)|]; rewrite IH; lra.
Qed.

Lemma refunded_sum_refund_row (Number : string -> Q) (new_id : string)
  (o : Order.t) (s : AdminOrders.State) :
  AdminOrders.refunded_sum (Order.id o) [AdminOrders.refund_row Number new_id o s]
  == Number (AdminOrders.refundAmount s).
Proof.
  cbn. rewrite String.eqb_refl. lra.
Qed.

Section Refunds.

Variable Number : string -> Q.

(** One accepted call: the ledger grows by the row of the refund and the
    selected order keeps its identifier and its total. *)
Lemma refund_call_accepted (c : RefundCall) (db : Db.t)
  (s : AdminOrders.State) (o : Order.t) :
  AdminOrders.selectedOrder s = Some o ->
  insert_answer c = None ->
  is_empty (typed_amount c) = false ->
  let st' := refund_call Number c (db, s) in
  (exists new_row,
      Db.payments (fst st') = (Db.payments db ++ [new_row])%list
      /\ AdminOrders.refunded_sum (Order.id o) [new_row]
         == Number (typed_amount c))
  /\ (exists o', AdminOrders.selectedOrder (snd st') = Some o'
                 /\ Order.id o' = Order.id o
                 /\ Order.total o' = Order.total o).
Proof.
  intros Hsel Hins Hne. unfold refund_call, AdminOrders.handleRefund. cbn.
  rewrite Hsel, Hins, Hne. cbn. split.
  - eexists. split.
    + destruct (update_answer c); reflexivity.
    + cbn. rewrite String.eqb_refl. lra.
  - eexists. split; [reflexivity|]. split; reflexivity.
Qed.

(** C2, as the specification states it, fails: against an order of total
    1000, two refunds of 600 are both accepted and the refunds recorded sum
    to 1200; a third call with the amount -5 is accepted too. *)
Lemma refunds_exceed_order_total :
  let o := sample_order OS_delivered "online" in
  let st := refund_calls Number_of_digits
              [mkRefundCall "600" "r1" None None;
               mkRefundCall "600" "r2" None None;
               mkRefundCall "-5" "r3" None None]
              (Db.with_orders empty_db [o], admin_state o None "") in
  Order.total o == 1000
  /\ map Payment.refund_amount (Db.payments (fst st))
     = [Some 600; Some 600; Some (- (5))]
  /\ AdminOrders.refunded_sum "o1" (firstn 2 (Db.payments (fst st))) == 1200
  /\ ~ AdminOrders.refunded_sum "o1" (firstn 2 (Db.payments (fst st)))
       <= Order.total o.
Proof.
  cbv zeta. repeat split; try reflexivity.
  intros H. vm_compute in H. apply H. reflexivity.
Qed.

(** C2, amended: a refund call leaves the store as it is when no order is
    selected, when the amount field is empty or when the store rejects the
    insert.  No call is checked against the refunds recorded before: for
    every sequence of calls with amounts above 0 and at most the total of
    the order, accepted by the store, every call appends one entry, and the
    sum of refund_amount on the order grows by the sum of the amounts of the
    calls, beyond the total of the order when that sum is large enough. *)
Theorem refunds_not_checked_against_ledger :
  (forall (new_id : string) (r_insert r_update : Response) (db : Db.t)
          (s : AdminOrders.State),
      AdminOrders.selectedOrder s = None
      \/ is_empty (AdminOrders.refundAmount s) = true
      \/ r_insert <> None ->
      out_db (AdminOrders.handleRefund Number new_id r_insert r_update db s)
      = db)
  /\ (forall (calls : list RefundCall) (db : Db.t) (s : AdminOrders.State)
             (o : Order.t),
         AdminOrders.selectedOrder s = Some o ->
         Forall (accepted_within_total Number o) calls ->
         let st' := refund_calls Number calls (db, s) in
         List.length (Db.payments (fst st'))
         = (List.length (Db.payments db) + List.length calls)%nat
         /\ AdminOrders.refunded_sum (Order.id o) (Db.payments (fst st'))
            == AdminOrders.refunded_sum (Order.id o) (Db.payments db)
               + typed_total Number calls).
Proof.
  split.
  - intros new_id r_insert r_update db s H.
    unfold AdminOrders.handleRefund.
    destruct (AdminOrders.selectedOrder s) as [o|]; [|reflexivity].
    destruct (is_empty (AdminOrders.refundAmount s)); [reflexivity|].
    destruct r_insert as [message|]; [reflexivity|].
    destruct H as [H | [H | H]]; [discriminate H | discriminate H |].
    exfalso. apply H. reflexivity.
  - intros calls. induction calls as [|c calls IH]; intros db s o Hsel Hall.
    + cbn. split; [lia | lra].
    + inversion Hall as [|c' calls' Hc Hrest]; subst c' calls'.
      destruct Hc as (Hins & Hne & _ & Hle).
      pose proof (refund_call_accepted c db s o Hsel Hins Hne) as Hstep.
      cbv zeta in Hstep.
      destruct Hstep as [[new_row [Hled Hrow]] [o' [Hsel' [Hid Htot]]]].
      unfold refund_calls. cbn [fold_left].
      destruct (refund_call Number c (db, s)) as [db1 s1] eqn:E.
      cbn [fst snd] in Hled, Hsel'.
      assert (Hall' : Forall (accepted_within_total Number o') calls).
      { eapply Forall_impl; [|exact Hrest].
        intros a (Ha1 & Ha2 & Ha3 & Ha4). unfold accepted_within_total.
        rewrite Htot. repeat split; assumption. }
      specialize (IH db1 s1 o' Hsel' Hall'). cbv zeta in IH.
      unfold refund_calls in IH. destruct IH as [IHlen IHsum]. split.
      * rewrite IHlen, Hled, length_app. cbn. lia.
      * rewrite Hid in IHsum. rewrite IHsum, Hled, refunded_sum_app, Hrow.
        unfold typed_total. cbn [fold_right]. lra.
Qed.

End Refunds.

Lemma refunds_not_checked_against_ledger_witness :
  let o := sample_order OS_delivered "online" in
  let db := Db.with_orders empty_db [o] in
  let calls := [mkRefundCall "700" "r1" None None;
                mkRefundCall "400" "r2" None None] in
  let st' := refund_calls Number_of_digits calls (db, admin_state o None "") in
  List.length (Db.payments (fst st'))
  = (List.length (Db.payments db) + List.length calls)%nat
  /\ AdminOrders.refunded_sum (Order.id o) (Db.payments (fst st'))
     == AdminOrders.refunded_sum (Order.id o) (Db.payments db)
        + typed_total Number_of_digits calls.
Proof.
  intros o db calls.
  apply (proj2 (refunds_not_checked_against_ledger Number_of_digits)
           calls db (admin_state o None "") o).
  - reflexivity.
  - unfold calls, accepted_within_total.
    repeat constructor; cbn; discriminate.
Defined.

(** C10: a refund whose insert the store accepts appends one ledger entry
    with the status refunded, the typed amount as refund_amount and its
    exact negation as amount, and the page then sets the payment status of
    the selected order to refunded and asks the store for the same on the
    order, without comparing the amount with the total of the order: a
    partial and a full refund end in the same status. *)
Theorem handleRefund_entry_and_status :
  forall (Number : string -> Q) (new_id : string) (r_update : Response)
         (db : Db.t) (s : AdminOrders.State) (o : Order.t),
    AdminOrders.selectedOrder s = Some o ->
    is_empty (AdminOrders.refundAmount s) = false ->
    let out := AdminOrders.handleRefund Number new_id None r_update db s in
    exists p : Payment.t,
      Db.payments (out_db out) = (Db.payments db ++ [p])%list
      /\ Payment.order_id p = Order.id o
      /\ Payment.status p = PS_refunded
      /\ Payment.refund_amount p = Some (Number (AdminOrders.refundAmount s))
      /\ (forall a, Payment.refund_amount p = Some a -> Payment.amount p = - a)
      /\ option_map Order.payment_status
           (AdminOrders.selectedOrder (out_state out)) = Some PS_refunded
      /\ (r_update = None ->
          Forall (fun x => Order.id x = Order.id o ->
                           Order.payment_status x = PS_refunded)
            (Db.orders (out_db out)))
      /\ out_toasts out = [toast_info "Refund processed" ""].
Proof.
  intros Number new_id r_update db s o Hsel Hne.
  unfold AdminOrders.handleRefund. rewrite Hsel, Hne. cbn.
  exists (AdminOrders.refund_row Number new_id o s).
  split; [destruct r_update; reflexivity|].
  repeat split.
  - intros a Ha. cbn in Ha. injection Ha as Ha. rewrite <- Ha. reflexivity.
  - intros Hup. rewrite Hup. cbn.
    eapply Forall_impl;
      [| apply (update_where_hit
                  (fun x => String.eqb (Order.id x) (Order.id o))
                  (fun x => Order.set_payment_status x PS_refunded)
                  (fun x => Order.payment_status x = PS_refunded))].
    + intros x Hx Hid. apply Hx. apply String.eqb_eq. exact Hid.
    + intros r _. reflexivity.
Qed.

Lemma handleRefund_entry_and_status_witness :
  let o := sample_order OS_delivered "online" in
  let db := Db.with_orders empty_db [o] in
  let s := admin_state o None "300" in
  let out := AdminOrders.handleRefund Number_of_digits "r1" None None db s in
  exists p : Payment.t,
    Db.payments (out_db out) = (Db.payments db ++ [p])%list
    /\ Payment.order_id p = Order.id o
    /\ Payment.status p = PS_refunded
    /\ Payment.refund_amount p
       = Some (Number_of_digits (AdminOrders.refundAmount s))
    /\ (forall a, Payment.refund_amount p = Some a -> Payment.amount p = - a)
    /\ option_map Order.payment_status
         (AdminOrders.selectedOrder (out_state out)) = Some PS_refunded
    /\ (@None string = None ->
        Forall (fun x => Order.id x = Order.id o ->
                         Order.payment_status x = PS_refunded)
          (Db.orders (out_db out)))
    /\ out_toasts out = [toast_info "Refund processed" ""].
Proof.
  intros o db s.
  apply (handleRefund_entry_and_status Number_of_digits "r1" None db s o);
    reflexivity.
Defined.

(** ** Cash on delivery *)

(** C5, as the specification states it, fails: a cash-on-delivery order with
    no payment entry is marked paid; the order carries paid, in the store
    and on the page, and the ledger is still empty. *)
Lemma cod_paid_without_ledger_entry :
  let o := sample_order OS_delivered "cod" in
  let out := AdminOrders.onPaymentStatusChange PS_paid None None
               (Db.with_orders empty_db [o]) (admin_state o None "") in
  map Order.payment_status (Db.orders (out_db out)) = [PS_paid]
  /\ option_map Order.payment_status
       (AdminOrders.selectedOrder (out_state out)) = Some PS_paid
  /\ Db.payments (out_db out) = []
  /\ out_toasts out = [toast_info "Payment status updated" ""].
Proof. repeat split. Qed.

(** C5, amended: for every cash-on-delivery order, the selector writes the
    chosen payment status to the order and, with both writes accepted, sets
    the status of the payment entry of method cod of that order in the same
    step when the order has exactly one such entry; no entry is ever
    appended, and when the order has no such entry the ledger is left as it
    was. *)
Theorem cod_status_updates_existing_entry :
  forall (val : PaymentStatus) (db : Db.t) (s : AdminOrders.State)
         (o : Order.t),
    AdminOrders.selectedOrder s = Some o ->
    Order.payment_method o = Some "cod" ->
    let cod_entries :=
      filter (fun p => String.eqb (Payment.order_id p) (Order.id o)
                       && String.eqb (Payment.method p) "cod")
        (Db.payments db) in
    let out := AdminOrders.onPaymentStatusChange val None None db s in
    option_map Order.payment_status
      (AdminOrders.selectedOrder (out_state out)) = Some val
    /\ Forall (fun x => Order.id x = Order.id o -> Order.payment_status x = val)
         (Db.orders (out_db out))
    /\ map Payment.id (Db.payments (out_db out)) = map Payment.id (Db.payments db)
    /\ (forall p, cod_entries = [p] ->
          Forall (fun x => Payment.id x = Payment.id p -> Payment.status x = val)
            (Db.payments (out_db out)))
    /\ (cod_entries = [] -> Db.payments (out_db out) = Db.payments db).
Proof.
  intros val db s o Hsel Hcod.
  assert (Horders :
            Forall (fun x => Order.id x = Order.id o ->
                             Order.payment_status x = val)
              (update_where
                 (fun x => String.eqb (Order.id x) (Order.id o))
                 (fun x => Order.set_payment_status x val) (Db.orders db))).
  { eapply Forall_impl;
      [| apply (update_where_hit
                  (fun x => String.eqb (Order.id x) (Order.id o))
                  (fun x => Order.set_payment_status x val)
                  (fun x => Order.payment_status x = val))].
    - intros x Hx Hid. apply Hx. apply String.eqb_eq. exact Hid.
    - intros r _. reflexivity. }
  unfold AdminOrders.onPaymentStatusChange.
  rewrite Hsel, Hcod. cbn -[update_where].
  destruct (filter _ (Db.payments db)) as [|p1 [|p2 rest]];
    cbn -[update_where].
  - repeat split; try assumption. intros p Hp. discriminate Hp.
  - split; [reflexivity|]. split; [exact Horders|]. split; [|split].
    + apply update_where_key. intros r. reflexivity.
    + intros p Hp. injection Hp as Hp. subst p.
      eapply Forall_impl;
        [| apply (update_where_hit
                    (fun x => String.eqb (Payment.id x) (Payment.id p1))
                    (fun x => Payment.set_status x val)
                    (fun x => Payment.status x = val))].
      * intros x Hx Hid. apply Hx. apply String.eqb_eq. exact Hid.
      * intros r _. reflexivity.
    + intros Hnone. discriminate Hnone.
  - split; [reflexivity|]. split; [exact Horders|]. split; [reflexivity|].
    split; [intros p Hp; discriminate Hp | reflexivity].
Qed.

Lemma cod_status_updates_existing_entry_witness :
  let o := sample_order OS_delivered "cod" in
  let entry := Payment.mk "pay1" "o1" 1000 "cod" PS_pending None None in
  let db := Db.with_payments (Db.with_orders empty_db [o]) [entry] in
  let out := AdminOrders.onPaymentStatusChange PS_paid None None db
               (admin_state o None "") in
  map Payment.status (Db.payments (out_db out)) = [PS_paid]
  /\ Forall (fun x => Payment.id x = "pay1" -> Payment.status x = PS_paid)
       (Db.payments (out_db out)).
Proof.
  intros o entry db out. split; [reflexivity|].
  exact (proj1 (proj2 (proj2 (proj2
           (cod_status_updates_existing_entry PS_paid db
              (admin_state o None "") o eq_refl eq_refl))))
           entry eq_refl).
Defined.

(** ** Stock at cart time *)

(** On the cart page a quantity above the stock of the product is refused:
    neither the store nor the lines of the page change. *)
Lemma updateQuantity_rejects_beyond_stock :
  forall (itemId : string) (newQuantity : Z) (r : Response) (db : Db.t)
         (s : CartPage.State) (item : CartLine.t),
    find_item (fun i => String.eqb (CartLine.id i) itemId) (CartPage.cartItems s)
    = Some item ->
    (Product.stock_quantity (CartLine.product item) < newQuantity)%Z ->
    let out := CartPage.updateQuantity itemId newQuantity r db s in
    out_db out = db /\ out_state out = s.
Proof.
  intros itemId newQuantity r db s item Hfind Hstock.
  unfold CartPage.updateQuantity.
  destruct (newQuantity <? 1)%Z; [split; reflexivity|].
  rewrite Hfind. apply Z.ltb_lt in Hstock. rewrite Hstock. split; reflexivity.
Qed.

(** C8 on the code: the product has 2 in stock and the cart of the user
    holds 2 of it.  The card still offers the button, handleAddToCart
    stores 3 and reports the product as added, while updateQuantity refuses
    the same increase on the cart page. *)
Theorem handleAddToCart_exceeds_stock :
  let product := sample_product 100 2 in
  let db := Db.with_cart_items (Db.with_cart empty_db [Cart.mk "c1" "u1"])
              [CartItem.mk "i1" "c1" "p1" 2] in
  let out := HomePage.handleAddToCart (Some "u1") product None None "c2" "i2" db in
  let page := cart_state [sample_line 100 2 2] "" None in
  isOutOfStock product = false
  /\ HomePage.stored_quantity "u1" product db = Some 2%Z
  /\ HomePage.stored_quantity "u1" product (fst out) = Some 3%Z
  /\ (Product.stock_quantity product < 3)%Z
  /\ snd out = [toast_info "Added to cart" "Lamp"]
  /\ out_db (CartPage.updateQuantity "i1" 3 None db page) = db
  /\ out_toasts (CartPage.updateQuantity "i1" 3 None db page)
     = [mkToast "Error" "Not enough stock available" true].
Proof. repeat split. Qed.

(** * Further properties of the code *)

(** ** Cart lines *)

Lemma fold_amount_acc (l : list CartLine.t) :
  forall acc,
    fold_left
      (fun sum item =>
         sum + Product.price (CartLine.product item)
               * inject_Z (CartLine.quantity item)) l acc
    == acc + CartPage.subtotal_of l.
Proof.
  unfold CartPage.subtotal_of.
  induction l as [|i l IH]; intros acc; cbn [fold_left].
  - lra.
  - rewrite IH. rewrite (IH (0 + _)). lra.
Qed.

Lemma subtotal_of_cons (i : CartLine.t) (l : list CartLine.t) :
  CartPage.subtotal_of (i :: l) == line_amount i + CartPage.subtotal_of l.
Proof.
  unfold CartPage.subtotal_of at 1. cbn [fold_left].
  rewrite fold_amount_acc. unfold line_amount. lra.
Qed.

(** With distinct line identifiers, the line found for an identifier is the
    only line that carries it. *)
Lemma find_item_unique (l : list CartLine.t) (k : string) (item i : CartLine.t) :
  NoDup (map CartLine.id l) ->
  find_item (fun x => String.eqb (CartLine.id x) k) l = Some item ->
  In i l -> CartLine.id i = k -> i = item.
Proof.
  unfold find_item. induction l as [|x l IH]; intros Hnd Hfind Hin Hid.
  - destruct Hin.
  - cbn in Hnd. inversion Hnd as [|? ? Hnotin Hnd']; subst.
    cbn in Hfind. destruct (String.eqb (CartLine.id x) (CartLine.id i)) eqn:E.
    + injection Hfind as Hfind. subst item.
      destruct Hin as [Hin | Hin]; [symmetry; exact Hin|].
      exfalso. apply Hnotin. apply String.eqb_eq in E. rewrite E.
      apply in_map. exact Hin.
    + destruct Hin as [Hin | Hin].
      * subst x. rewrite String.eqb_refl in E. discriminate E.
      * apply IH; auto.
Qed.

Lemma find_item_some (l : list CartLine.t) (k : string) (item : CartLine.t) :
  find_item (fun x => String.eqb (CartLine.id x) k) l = Some item ->
  In item l /\ CartLine.id item = k.
Proof.
  unfold find_item. intros H. apply find_some in H.
  destruct H as [Hin Hid]. split; [exact Hin | apply String.eqb_eq, Hid].
Qed.

(** Stock invariant of the cart page: with distinct line identifiers, if
    every line holds between 1 and the stock of its product, it still does
    after any call of updateQuantity, whatever the store answers. *)
Theorem updateQuantity_keeps_within_stock :
  forall (itemId : string) (newQuantity : Z) (r : Response) (db : Db.t)
         (s : CartPage.State),
    NoDup (map CartLine.id (CartPage.cartItems s)) ->
    within_stock (CartPage.cartItems s) ->
    let s' := out_state (CartPage.updateQuantity itemId newQuantity r db s) in
    within_stock (CartPage.cartItems s')
    /\ map CartLine.id (CartPage.cartItems s')
       = map CartLine.id (CartPage.cartItems s).
Proof.
  intros itemId newQuantity r db s Hnd Hinv. unfold CartPage.updateQuantity.
  destruct (newQuantity <? 1)%Z eqn:Hlow; [split; [exact Hinv | reflexivity]|].
  destruct (find_item _ (CartPage.cartItems s)) as [item|] eqn:Hfind;
    [|split; [exact Hinv | reflexivity]].
  destruct (Product.stock_quantity (CartLine.product item) <? newQuantity)%Z
    eqn:Hhigh; [split; [exact Hinv | reflexivity]|].
  apply Z.ltb_ge in Hlow, Hhigh. cbn. split.
  - unfold within_stock in *. rewrite Forall_forall in *.
    intros x Hx. apply in_map_iff in Hx. destruct Hx as [i [Hxi Hi]].
    destruct (String.eqb (CartLine.id i) itemId) eqn:E.
    + apply String.eqb_eq in E.
      assert (i = item) by (eapply find_item_unique; eauto).
      subst i x. cbn. lia.
    + subst x. apply Hinv, Hi.
  - rewrite map_map. apply map_ext. intros i.
    destruct (String.eqb (CartLine.id i) itemId); reflexivity.
Qed.

Lemma updateQuantity_keeps_within_stock_witness :
  let s := cart_state [sample_line 100 2 5] "" None in
  let s' := out_state (CartPage.updateQuantity "i1" 5 None empty_db s) in
  within_stock (CartPage.cartItems s')
  /\ map CartLine.id (CartPage.cartItems s') = map CartLine.id (CartPage.cartItems s).
Proof.
  intros s.
  apply (updateQuantity_keeps_within_stock "i1" 5 None empty_db s).
  - cbn. constructor; [intros [] | constructor].
  - unfold within_stock. constructor; [split; vm_compute; discriminate | constructor].
Defined.

Lemma set_quantity_absent (k : string) (n : Z) (l : list CartLine.t) :
  ~ In k (map CartLine.id l) ->
  map (fun i => if String.eqb (CartLine.id i) k
                then CartLine.set_quantity i n else i) l = l.
Proof.
  induction l as [|x l IH]; intros Hk; [reflexivity|]. cbn.
  destruct (String.eqb (CartLine.id x) k) eqn:E.
  - exfalso. apply Hk. left. apply String.eqb_eq, E.
  - f_equal. apply IH. intros H. apply Hk. right. exact H.
Qed.

Lemma set_quantity_subtotal (k : string) (n : Z) (item : CartLine.t)
  (l : list CartLine.t) :
  NoDup (map CartLine.id l) -> In item l -> CartLine.id item = k ->
  CartPage.subtotal_of
    (map (fun i => if String.eqb (CartLine.id i) k
                   then CartLine.set_quantity i n else i) l)
  == CartPage.subtotal_of l
     + Product.price (CartLine.product item)
       * (inject_Z n - inject_Z (CartLine.quantity item)).
Proof.
  induction l as [|x l IH]; intros Hnd Hin Hid; [destruct Hin|].
  cbn [map] in *. inversion Hnd as [|? ? Hnotin Hnd']; subst.
  rewrite !subtotal_of_cons.
  destruct Hin as [Hin | Hin].
  - subst x. rewrite String.eqb_refl.
    rewrite (set_quantity_absent _ n l Hnotin).
    unfold line_amount. cbn. ring.
  - destruct (String.eqb (CartLine.id x) (CartLine.id item)) eqn:E.
    + exfalso. apply Hnotin. apply String.eqb_eq in E. rewrite E.
      apply in_map. exact Hin.
    + rewrite (IH Hnd' Hin eq_refl). ring.
Qed.

Lemma find_item_set_quantity (k : string) (n : Z) (l : list CartLine.t) :
  find_item (fun x => String.eqb (CartLine.id x) k)
    (map (fun i => if String.eqb (CartLine.id i) k
                   then CartLine.set_quantity i n else i) l)
  = option_map (fun i => CartLine.set_quantity i n)
      (find_item (fun x => String.eqb (CartLine.id x) k) l).
Proof.
  unfold find_item. induction l as [|x l IH]; [reflexivity|]. cbn.
  destruct (String.eqb (CartLine.id x) k) eqn:E; cbn; rewrite E.
  - reflexivity.
  - exact IH.
Qed.

(** An accepted change of quantity takes effect on the line found and moves
    the subtotal the way the quantity moves: with distinct line identifiers,
    for the line found, a price that is not negative and a new quantity
    between 1 and the stock, the line then holds the new quantity, the
    subtotal does not fall when the quantity is raised and does not rise
    when it is lowered. *)
Theorem updateQuantity_subtotal_monotone :
  forall (itemId : string) (newQuantity : Z) (r : Response) (db : Db.t)
         (s : CartPage.State) (item : CartLine.t),
    NoDup (map CartLine.id (CartPage.cartItems s)) ->
    find_item (fun i => String.eqb (CartLine.id i) itemId) (CartPage.cartItems s)
    = Some item ->
    0 <= Product.price (CartLine.product item) ->
    (1 <= newQuantity)%Z ->
    (newQuantity <= Product.stock_quantity (CartLine.product item))%Z ->
    let s' := out_state (CartPage.updateQuantity itemId newQuantity r db s) in
    find_item (fun i => String.eqb (CartLine.id i) itemId) (CartPage.cartItems s')
    = Some (CartLine.set_quantity item newQuantity)
    /\ ((CartLine.quantity item <= newQuantity)%Z ->
        CartPage.subtotal s <= CartPage.subtotal s')
    /\ ((newQuantity <= CartLine.quantity item)%Z ->
        CartPage.subtotal s' <= CartPage.subtotal s).
Proof.
  intros itemId newQuantity r db s item Hnd Hfind Hprice Hlow Hhigh.
  destruct (find_item_some _ _ _ Hfind) as [Hin Hid].
  assert (Hsub :
            CartPage.subtotal
              (out_state (CartPage.updateQuantity itemId newQuantity r db s))
            == CartPage.subtotal s
               + Product.price (CartLine.product item)
                 * (inject_Z newQuantity - inject_Z (CartLine.quantity item))).
  { unfold CartPage.updateQuantity.
    apply Z.ltb_ge in Hlow, Hhigh. rewrite Hlow, Hfind, Hhigh.
    unfold CartPage.subtotal. cbn.
    apply set_quantity_subtotal; assumption. }
  cbv zeta. split; [|split].
  - unfold CartPage.updateQuantity.
    apply Z.ltb_ge in Hlow, Hhigh. rewrite Hlow, Hfind, Hhigh. cbn.
    rewrite find_item_set_quantity, Hfind. reflexivity.
  - intros Hup. rewrite Hsub. rewrite Zle_Qle in Hup.
    assert (0 <= Product.price (CartLine.product item)
                 * (inject_Z newQuantity - inject_Z (CartLine.quantity item)))
      by (apply Qmult_le_0_compat; lra).
    lra.
  - intros Hdown. rewrite Hsub. rewrite Zle_Qle in Hdown.
    assert (0 <= Product.price (CartLine.product item)
                 * (inject_Z (CartLine.quantity item) - inject_Z newQuantity))
      by (apply Qmult_le_0_compat; lra).
    lra.
Qed.

Lemma updateQuantity_subtotal_monotone_witness :
  let s := cart_state [sample_line 100 2 5] "" None in
  let s' := out_state (CartPage.updateQuantity "i1" 5 None empty_db s) in
  find_item (fun i => String.eqb (CartLine.id i) "i1") (CartPage.cartItems s')
  = Some (CartLine.set_quantity (sample_line 100 2 5) 5)
  /\ ((CartLine.quantity (sample_line 100 2 5) <= 5)%Z ->
      CartPage.subtotal s <= CartPage.subtotal s')
  /\ ((5 <= CartLine.quantity (sample_line 100 2 5))%Z ->
      CartPage.subtotal s' <= CartPage.subtotal s).
Proof.
  intros s.
  apply (updateQuantity_subtotal_monotone "i1" 5 None empty_db s
           (sample_line 100 2 5)).
  - cbn. constructor; [intros [] | constructor].
  - reflexivity.
  - vm_compute. discriminate.
  - vm_compute. discriminate.
  - vm_compute. discriminate.
Defined.

Lemma subtotal_of_filter (p : CartLine.t -> bool) (l : list CartLine.t) :
  CartPage.subtotal_of (filter p l)
  + CartPage.subtotal_of (filter (fun i => negb (p i)) l)
  == CartPage.subtotal_of l.
Proof.
  induction l as [|x l IH]; cbn [filter].
  - reflexivity.
  - destruct (p x); cbn [negb]; rewrite !subtotal_of_cons, <- IH; ring.
Qed.

Lemma items_nonneg_filter (p : CartLine.t -> bool) (l : list CartLine.t) :
  items_nonneg l -> items_nonneg (filter p l).
Proof.
  unfold items_nonneg. rewrite !Forall_forall. intros H x Hx.
  apply filter_In in Hx. apply H, Hx.
Qed.

(** [removeItem] drops every line of the identifier from the page and keeps
    every other line; the store loses the rows of the identifier when the
    delete is accepted and is left as it was when it is rejected; for prices
    and quantities that are not negative the subtotal does not rise; the
    applied coupon is kept as it is, without a new check of its minimum
    order value. *)
Theorem removeItem_effect :
  forall (itemId : string) (r : Response) (db : Db.t) (s : CartPage.State),
    let out := removeItem itemId r db s in
    ~ In itemId (map CartLine.id (CartPage.cartItems (out_state out)))
    /\ (forall i, In i (CartPage.cartItems s) -> CartLine.id i <> itemId ->
                  In i (CartPage.cartItems (out_state out)))
    /\ (forall i, In i (CartPage.cartItems (out_state out)) ->
                  In i (CartPage.cartItems s))
    /\ (items_nonneg (CartPage.cartItems s) ->
        CartPage.subtotal (out_state out) <= CartPage.subtotal s)
    /\ (r = None ->
        ~ In itemId (map CartItem.id (Db.cart_items (out_db out))))
    /\ (r <> None -> out_db out = db)
    /\ CartPage.appliedCoupon (out_state out) = CartPage.appliedCoupon s.
Proof.
  intros itemId r db s. cbn.
  split; [|split; [|split; [|split; [|split; [|split]]]]].
  - intros H. apply in_map_iff in H. destruct H as [i [Hid Hin]].
    apply filter_In in Hin. destruct Hin as [_ Hne]. subst itemId.
    rewrite String.eqb_refl in Hne. discriminate Hne.
  - intros i Hin Hne. apply filter_In. split; [exact Hin|].
    apply negb_true_iff. apply String.eqb_neq. exact Hne.
  - intros i Hin. apply filter_In in Hin. apply Hin.
  - intros Hnn. unfold CartPage.subtotal. cbn.
    pose proof (subtotal_of_filter
                  (fun i => String.eqb (CartLine.id i) itemId)
                  (CartPage.cartItems s)) as Hsplit.
    pose proof (fold_subtotal_nonneg _
                  (items_nonneg_filter
                     (fun i => String.eqb (CartLine.id i) itemId) _ Hnn)
                  0 (Qle_refl 0)) as Hgone.
    fold (CartPage.subtotal_of
            (filter (fun i => String.eqb (CartLine.id i) itemId)
               (CartPage.cartItems s))) in Hgone.
    cbv beta in Hsplit.
    set (gone := CartPage.subtotal_of
                   (filter (fun i => String.eqb (CartLine.id i) itemId)
                      (CartPage.cartItems s))) in *.
    set (kept := CartPage.subtotal_of
                   (filter (fun i => negb (String.eqb (CartLine.id i) itemId))
                      (CartPage.cartItems s))) in *.
    set (all := CartPage.subtotal_of (CartPage.cartItems s)) in *.
    change (kept <= all). lra.
  - intros Hr. rewrite Hr. cbn. intros H. apply in_map_iff in H.
    destruct H as [i [Hid Hin]].
    apply filter_In in Hin. destruct Hin as [_ Hne]. subst itemId.
    rewrite String.eqb_refl in Hne. discriminate Hne.
  - intros Hr. destruct r; [reflexivity | contradiction].
  - reflexivity.
Qed.

Lemma find_item_in (l : list CartLine.t) (item : CartLine.t) :
  NoDup (map CartLine.id l) -> In item l ->
  find_item (fun x => String.eqb (CartLine.id x) (CartLine.id item)) l
  = Some item.
Proof.
  intros Hnd Hin.
  destruct (find_item _ l) as [found|] eqn:E.
  - f_equal. symmetry. eapply find_item_unique; eauto.
  - unfold find_item in E.
    pose proof (find_none _ _ E item Hin) as H. cbn in H.
    rewrite String.eqb_refl in H. discriminate H.
Qed.

Lemma set_quantity_same (item : CartLine.t) (l : list CartLine.t) :
  NoDup (map CartLine.id l) -> In item l ->
  map (fun i => if String.eqb (CartLine.id i) (CartLine.id item)
                then CartLine.set_quantity i (CartLine.quantity item) else i) l
  = l.
Proof.
  intros Hnd Hin. rewrite <- (map_id l) at 2. apply map_ext_in.
  intros i Hi. destruct (String.eqb (CartLine.id i) (CartLine.id item)) eqn:E.
  - apply String.eqb_eq in E.
    assert (i = item)
      by (eapply find_item_unique; eauto using find_item_in).
    subst i. destruct item; reflexivity.
  - reflexivity.
Qed.

(** The plus button followed by the minus button of the same line gives the
    cart back as it was: with distinct line identifiers, for a line holding
    at least 1 and less than the stock, the lines of the page after the two
    clicks are the lines before them, whatever the store answers. *)
Theorem clickPlus_then_clickMinus :
  forall (item : CartLine.t) (r1 r2 : Response) (db : Db.t)
         (s : CartPage.State),
    NoDup (map CartLine.id (CartPage.cartItems s)) ->
    In item (CartPage.cartItems s) ->
    (1 <= CartLine.quantity item)%Z ->
    (CartLine.quantity item < Product.stock_quantity (CartLine.product item))%Z ->
    let out1 := clickPlus item r1 db s in
    let item' := CartLine.set_quantity item (CartLine.quantity item + 1)%Z in
    In item' (CartPage.cartItems (out_state out1))
    /\ CartPage.cartItems
         (out_state (clickMinus item' r2 (out_db out1) (out_state out1)))
       = CartPage.cartItems s.
Proof.
  intros item r1 r2 db s Hnd Hin Hlow Hhigh.
  pose proof (find_item_in _ _ Hnd Hin) as Hfind.
  assert (E1 : (Product.stock_quantity (CartLine.product item)
                <=? CartLine.quantity item)%Z = false)
    by (apply Z.leb_gt; lia).
  assert (E2 : (CartLine.quantity item + 1 <? 1)%Z = false)
    by (apply Z.ltb_ge; lia).
  assert (E3 : (Product.stock_quantity (CartLine.product item)
                <? CartLine.quantity item + 1)%Z = false)
    by (apply Z.ltb_ge; lia).
  assert (E4 : (CartLine.quantity item + 1 <=? 1)%Z = false)
    by (apply Z.leb_gt; lia).
  assert (E5 : (CartLine.quantity item + 1 - 1 <? 1)%Z = false)
    by (apply Z.ltb_ge; lia).
  assert (E6 : (Product.stock_quantity (CartLine.product item)
                <? CartLine.quantity item + 1 - 1)%Z = false)
    by (apply Z.ltb_ge; lia).
  assert (Hout1 :
            out_state (clickPlus item r1 db s)
            = CartPage.setCartItems s
                (map (fun i => if String.eqb (CartLine.id i) (CartLine.id item)
                               then CartLine.set_quantity i
                                      (CartLine.quantity item + 1)%Z
                               else i)
                   (CartPage.cartItems s))).
  { unfold clickPlus. rewrite E1. unfold CartPage.updateQuantity.
    rewrite E2, Hfind, E3. reflexivity. }
  cbv zeta. rewrite Hout1. cbn [CartPage.setCartItems CartPage.cartItems].
  split.
  - apply in_map_iff. exists item. rewrite String.eqb_refl. split; auto.
  - unfold clickMinus. cbn [CartLine.set_quantity CartLine.quantity CartLine.id].
    rewrite E4. unfold CartPage.updateQuantity.
    cbn [CartPage.cartItems CartPage.setCartItems]. rewrite E5.
    rewrite find_item_set_quantity, Hfind.
    cbn [option_map CartLine.set_quantity CartLine.product]. rewrite E6.
    cbn [out_state fst snd CartPage.setCartItems CartPage.cartItems].
    rewrite map_map. rewrite <- (set_quantity_same item _ Hnd Hin) at 2.
    apply map_ext. intros i.
    destruct (String.eqb (CartLine.id i) (CartLine.id item)) eqn:E;
      cbn [CartLine.set_quantity CartLine.id]; rewrite E.
    + unfold CartLine.set_quantity. cbn. f_equal. lia.
    + reflexivity.
Qed.

Lemma clickPlus_then_clickMinus_witness :
  let item := sample_line 100 2 5 in
  let s := cart_state [item] "" None in
  let out1 := clickPlus item None empty_db s in
  let item' := CartLine.set_quantity item (CartLine.quantity item + 1)%Z in
  In item' (CartPage.cartItems (out_state out1))
  /\ CartPage.cartItems
       (out_state (clickMinus item' None (out_db out1) (out_state out1)))
     = CartPage.cartItems s.
Proof.
  intros item s.
  apply (clickPlus_then_clickMinus item None None empty_db s).
  - cbn. constructor; [intros [] | constructor].
  - left. reflexivity.
  - vm_compute. discriminate.
  - vm_compute. reflexivity.
Defined.

(** ** Coupons *)

Lemma upper_ascii_idempotent (c : ascii) :
  upper_ascii (upper_ascii c) = upper_ascii c.
Proof.
  destruct c as [[] [] [] [] [] [] [] []]; vm_compute; reflexivity.
Qed.

Lemma toUpperCase_idempotent (s : string) :
  toUpperCase (toUpperCase s) = toUpperCase s.
Proof.
  induction s as [|c s IH]; cbn; [reflexivity|].
  rewrite upper_ascii_idempotent, IH. reflexivity.
Qed.

Lemma single_some {A : Type} (rows : list A) (r : A) :
  single rows = Some r -> rows = [r].
Proof.
  destruct rows as [|x [|y rows]]; cbn; intros H; try discriminate H.
  injection H as H. subst x. reflexivity.
Qed.

(** [applyCoupon] never writes to the store and never touches the cart
    lines, and it applies eligible coupons only: either the applied coupon
    is left as it was, or the coupon now applied is a row of the store that
    is active, whose code is the typed code in upper case (so a stored code
    with a lower-case letter is never applied), and whose minimum order
    value, when set and not zero, is at most the subtotal of the cart. *)
Theorem applyCoupon_applies_eligible_only :
  forall (db : Db.t) (s : CartPage.State),
    let out := CartPage.applyCoupon db s in
    out_db out = db
    /\ CartPage.cartItems (out_state out) = CartPage.cartItems s
    /\ (CartPage.appliedCoupon (out_state out) = CartPage.appliedCoupon s
        \/ exists c : Coupon.t,
             CartPage.appliedCoupon (out_state out) = Some c
             /\ In c (Db.coupons db)
             /\ Coupon.is_active c = true
             /\ Coupon.code c = toUpperCase (CartPage.couponCode s)
             /\ toUpperCase (Coupon.code c) = Coupon.code c
             /\ (forall m, Coupon.min_order_value c = Some m ->
                           ~ m == 0 -> m <= CartPage.subtotal s)).
Proof.
  intros db s. unfold CartPage.applyCoupon.
  destruct (is_blank (CartPage.couponCode s)); [cbn; auto|].
  destruct (single _) as [c|] eqn:Hsingle; [|cbn; auto].
  destruct (truthy (Coupon.min_order_value c) && _) eqn:Hmin; [cbn; auto|].
  cbn. split; [reflexivity|]. split; [reflexivity|]. right.
  exists c. split; [reflexivity|].
  apply single_some in Hsingle.
  assert (Hin : In c (filter
                        (fun c0 => String.eqb (Coupon.code c0)
                                     (toUpperCase (CartPage.couponCode s))
                                   && Coupon.is_active c0) (Db.coupons db)))
    by (rewrite Hsingle; left; reflexivity).
  apply filter_In in Hin. destruct Hin as [Hin Hp].
  apply andb_true_iff in Hp. destruct Hp as [Hcode Hactive].
  apply String.eqb_eq in Hcode.
  split; [exact Hin|]. split; [exact Hactive|]. split; [exact Hcode|].
  split; [rewrite Hcode; apply toUpperCase_idempotent|].
  intros m Hm Hnz. rewrite Hm in Hmin. cbn in Hmin.
  destruct (Qeq_bool m 0) eqn:E.
  - apply Qeq_bool_iff in E. contradiction.
  - cbn in Hmin. apply negb_false_iff in Hmin.
    apply Qle_bool_iff. exact Hmin.
Qed.

(** ** Adding to the cart *)

Lemma filter_update_where {A : Type} (P p : A -> bool) (f : A -> A)
  (l : list A) :
  (forall x, P (f x) = P x) ->
  filter P (update_where p f l) = update_where p f (filter P l).
Proof.
  intros HP. unfold update_where.
  induction l as [|x l IH]; [reflexivity|]. cbn.
  destruct (p x) eqn:Ep.
  - rewrite HP. destruct (P x); cbn; [rewrite Ep|]; rewrite IH; reflexivity.
  - destruct (P x); cbn; [rewrite Ep|]; rewrite IH; reflexivity.
Qed.

(** One accepted click for a user with one cart: the line of the product
    goes from [q] to [q + 1], the cart table is untouched. *)
Lemma add_once_existing (uid : string) (product : Product.t)
  (new_cart_id new_item_id : string) (db : Db.t) (c : Cart.t) (q : Z) :
  filter (fun x => String.eqb (Cart.user_id x) uid) (Db.cart db) = [c] ->
  HomePage.stored_quantity uid product db = Some q ->
  let db' := fst (HomePage.handleAddToCart (Some uid) product None None
                    new_cart_id new_item_id db) in
  HomePage.stored_quantity uid product db' = Some (q + 1)%Z
  /\ Db.cart db' = Db.cart db
  /\ List.length (Db.cart_items db') = List.length (Db.cart_items db).
Proof.
  intros Hcart Hq. cbv zeta.
  unfold HomePage.stored_quantity in Hq. rewrite Hcart in Hq. cbn in Hq.
  destruct (single (filter _ (Db.cart_items db))) as [e|] eqn:He;
    [|discriminate Hq].
  injection Hq as Hq.
  unfold HomePage.handleAddToCart. rewrite Hcart.
  cbn [single]. cbv iota beta. rewrite He.
  cbn [fst Db.commit]. unfold HomePage.stored_quantity.
  cbn [Db.cart Db.with_cart_items Db.cart_items]. rewrite Hcart. cbn [single].
  rewrite filter_update_where by (intros x; reflexivity).
  apply single_some in He. rewrite He.
  cbn. rewrite String.eqb_refl. cbn. rewrite Hq.
  split; [reflexivity|]. split; [reflexivity|].
  apply length_map.
Qed.

(** The first add of a product by a user with one cart stores a line with
    the quantity 1; for a user with no cart an accepted insert creates the
    cart first. *)
Theorem handleAddToCart_first_add :
  forall (uid : string) (product : Product.t)
         (new_cart_id new_item_id : string) (db : Db.t),
    let out := HomePage.handleAddToCart (Some uid) product None None
                 new_cart_id new_item_id db in
    let lines_of cid :=
      filter (fun i => String.eqb (CartItem.cart_id i) cid
                       && String.eqb (CartItem.product_id i) (Product.id product))
        (Db.cart_items db) in
    (forall c,
        filter (fun x => String.eqb (Cart.user_id x) uid) (Db.cart db) = [c] ->
        lines_of (Cart.id c) = [] ->
        HomePage.stored_quantity uid product (fst out) = Some 1%Z
        /\ Db.cart (fst out) = Db.cart db)
    /\ (filter (fun x => String.eqb (Cart.user_id x) uid) (Db.cart db) = [] ->
        lines_of new_cart_id = [] ->
        HomePage.stored_quantity uid product (fst out) = Some 1%Z
        /\ Db.cart (fst out) = (Db.cart db ++ [Cart.mk new_cart_id uid])%list).
Proof.
  intros uid product new_cart_id new_item_id db. cbv zeta. split.
  - intros c Hcart Hlines.
    unfold HomePage.handleAddToCart. rewrite Hcart. cbn [single].
    cbv iota beta. rewrite Hlines. cbn [single fst Db.commit].
    unfold HomePage.stored_quantity.
    cbn [Db.cart Db.with_cart_items Db.cart_items]. rewrite Hcart. cbn [single].
    rewrite filter_app, Hlines. cbn.
    rewrite !String.eqb_refl. cbn. split; reflexivity.
  - intros Hcart Hlines.
    unfold HomePage.handleAddToCart. rewrite Hcart. cbn [single].
    cbv iota beta. cbn [Db.cart_items Db.with_cart Cart.id]. rewrite Hlines.
    cbn [single fst Db.commit].
    unfold HomePage.stored_quantity.
    cbn [Db.cart Db.with_cart_items Db.with_cart Db.cart_items].
    rewrite filter_app, Hcart. cbn. rewrite !String.eqb_refl. cbn.
    rewrite filter_app, Hlines. cbn. rewrite !String.eqb_refl. cbn.
    split; reflexivity.
Qed.

(** Repeated adds are never limited by the stock: for a user with one cart
    whose line of the product holds [q], [n] accepted clicks leave the line
    at [q + n], whatever the stock of the product is, and add no line. *)
Theorem add_each_accumulates :
  forall (ids : list (string * string)) (uid : string) (product : Product.t)
         (db : Db.t) (c : Cart.t) (q : Z),
    filter (fun x => String.eqb (Cart.user_id x) uid) (Db.cart db) = [c] ->
    HomePage.stored_quantity uid product db = Some q ->
    HomePage.stored_quantity uid product (add_each ids uid product db)
    = Some (q + Z.of_nat (List.length ids))%Z
    /\ List.length (Db.cart_items (add_each ids uid product db))
       = List.length (Db.cart_items db).
Proof.
  induction ids as [|[cid iid] ids IH]; intros uid product db c q Hcart Hq.
  - cbn. rewrite Z.add_0_r. split; [exact Hq | reflexivity].
  - cbn [add_each].
    destruct (add_once_existing uid product cid iid db c q Hcart Hq)
      as (Hq' & Hcart' & Hlen).
    cbv zeta in Hq', Hcart', Hlen.
    rewrite <- Hcart' in Hcart.
    destruct (IH uid product _ c (q + 1)%Z Hcart Hq') as [IHq IHlen].
    split.
    + rewrite IHq. f_equal. cbn [List.length]. lia.
    + rewrite IHlen. exact Hlen.
Qed.

Lemma add_each_accumulates_witness :
  let product := sample_product 100 2 in
  let db := Db.with_cart_items (Db.with_cart empty_db [Cart.mk "c1" "u1"])
              [CartItem.mk "i1" "c1" "p1" 2] in
  let ids := [("c2", "i2"); ("c3", "i3"); ("c4", "i4")] in
  HomePage.stored_quantity "u1" product (add_each ids "u1" product db)
  = Some (2 + Z.of_nat (List.length ids))%Z
  /\ List.length (Db.cart_items (add_each ids "u1" product db))
     = List.length (Db.cart_items db).
Proof.
  intros product db ids.
  apply (add_each_accumulates ids "u1" product db (Cart.mk "c1" "u1") 2%Z);
    reflexivity.
Defined.

(** A rejected write is reported as a success: for a user with one cart,
    when the store rejects the write of the cart line the store is left as
    it was, and the only toast is still "Added to cart". *)
Theorem handleAddToCart_rejected_write :
  forall (uid message : string) (product : Product.t) (r_cart : Response)
         (new_cart_id new_item_id : string) (db : Db.t) (c : Cart.t),
    filter (fun x => String.eqb (Cart.user_id x) uid) (Db.cart db) = [c] ->
    let out := HomePage.handleAddToCart (Some uid) product r_cart (Some message)
                 new_cart_id new_item_id db in
    fst out = db
    /\ snd out = [toast_info "Added to cart" (Product.name product)].
Proof.
  intros uid message product r_cart new_cart_id new_item_id db c Hcart.
  unfold HomePage.handleAddToCart. rewrite Hcart. cbn [single]. cbv iota beta.
  destruct (single _); cbn; split; reflexivity.
Qed.

Lemma handleAddToCart_rejected_write_witness :
  let product := sample_product 100 2 in
  let db := Db.with_cart empty_db [Cart.mk "c1" "u1"] in
  let out := HomePage.handleAddToCart (Some "u1") product None (Some "timeout")
               "c2" "i2" db in
  fst out = db /\ snd out = [toast_info "Added to cart" (Product.name product)].
Proof.
  intros product db.
  apply (handleAddToCart_rejected_write "u1" "timeout" product None "c2" "i2"
           db (Cart.mk "c1" "u1")).
  reflexivity.
Defined.

(** The badge of the header counts lines, not pieces: for a user with one
    cart, adding a product that already has its line leaves the count of
    fetchCartCount as it was, and adding a product with no line raises it
    by one. *)
Theorem fetchCartCount_after_add :
  forall (uid : string) (product : Product.t)
         (new_cart_id new_item_id : string) (db : Db.t) (c : Cart.t)
         (shown : Z),
    filter (fun x => String.eqb (Cart.user_id x) uid) (Db.cart db) = [c] ->
    let db' := fst (HomePage.handleAddToCart (Some uid) product None None
                      new_cart_id new_item_id db) in
    let lines :=
      filter (fun i => String.eqb (CartItem.cart_id i) (Cart.id c)
                       && String.eqb (CartItem.product_id i) (Product.id product))
        (Db.cart_items db) in
    (forall e, lines = [e] ->
               fetchCartCount (Some uid) db' shown
               = fetchCartCount (Some uid) db shown)
    /\ (lines = [] ->
        fetchCartCount (Some uid) db' shown
        = (fetchCartCount (Some uid) db shown + 1)%Z).
Proof.
  intros uid product new_cart_id new_item_id db c shown Hcart. cbv zeta.
  unfold fetchCartCount, HomePage.handleAddToCart.
  rewrite Hcart. cbn [single]. cbv iota beta. split.
  - intros e He. rewrite He. cbn [single fst Db.commit].
    cbn [Db.cart Db.with_cart_items Db.cart_items]. rewrite Hcart. cbn [single].
    rewrite filter_update_where by (intros x; reflexivity).
    unfold update_where. rewrite length_map. reflexivity.
  - intros He. rewrite He. cbn [single fst Db.commit].
    cbn [Db.cart Db.with_cart_items Db.cart_items]. rewrite Hcart. cbn [single].
    rewrite filter_app, length_app. cbn. rewrite String.eqb_refl. cbn. lia.
Qed.

Lemma fetchCartCount_after_add_witness :
  let product := sample_product 100 2 in
  let db := Db.with_cart_items (Db.with_cart empty_db [Cart.mk "c1" "u1"])
              [CartItem.mk "i1" "c1" "p1" 2] in
  let db' := fst (HomePage.handleAddToCart (Some "u1") product None None
                    "c2" "i2" db) in
  fetchCartCount (Some "u1") db' 0 = fetchCartCount (Some "u1") db 0.
Proof.
  intros product db.
  exact (proj1 (fetchCartCount_after_add "u1" product "c2" "i2" db
                  (Cart.mk "c1" "u1") 0%Z eq_refl)
           (CartItem.mk "i1" "c1" "p1" 2) eq_refl).
Defined.

(** ** Banner slider *)

Lemma nextBanner_cases (n x : Z) :
  (0 <= x < n)%Z ->
  nextBanner n x = if (x + 1 =? n)%Z then 0%Z else (x + 1)%Z.
Proof.
  intros H. unfold nextBanner. destruct (Z.eqb_spec (x + 1) n) as [E | E].
  - rewrite E. apply Z.rem_same. lia.
  - apply Z.rem_small. lia.
Qed.

Lemma prevBanner_cases (n x : Z) :
  (0 <= x < n)%Z ->
  prevBanner n x = if (x =? 0)%Z then (n - 1)%Z else (x - 1)%Z.
Proof.
  intros H. unfold prevBanner. destruct (Z.eqb_spec x 0) as [E | E].
  - subst x. replace (0 - 1 + n)%Z with (n - 1)%Z by lia.
    apply Z.rem_small. lia.
  - rewrite Z.rem_mod_nonneg by lia.
    replace (x - 1 + n)%Z with (x - 1 + 1 * n)%Z by lia.
    rewrite Z.mod_add by lia. apply Z.mod_small. lia.
Qed.

(** For a slider of [n] banners showing a banner in range, both arrows stay
    in range, and each arrow undoes the other. *)
Theorem banner_arrows_inverse :
  forall n prev : Z,
    (0 <= prev < n)%Z ->
    (0 <= nextBanner n prev < n)%Z
    /\ (0 <= prevBanner n prev < n)%Z
    /\ prevBanner n (nextBanner n prev) = prev
    /\ nextBanner n (prevBanner n prev) = prev.
Proof.
  intros n prev Hrange.
  assert (Hn : (0 <= nextBanner n prev < n)%Z).
  { rewrite nextBanner_cases by exact Hrange.
    destruct (Z.eqb_spec (prev + 1) n); lia. }
  assert (Hp : (0 <= prevBanner n prev < n)%Z).
  { rewrite prevBanner_cases by exact Hrange.
    destruct (Z.eqb_spec prev 0); lia. }
  split; [exact Hn|]. split; [exact Hp|]. split.
  - rewrite (prevBanner_cases n _ Hn). rewrite nextBanner_cases by exact Hrange.
    destruct (Z.eqb_spec (prev + 1) n) as [E | E]; cbn.
    + lia.
    + destruct (Z.eqb_spec (prev + 1) 0); lia.
  - rewrite (nextBanner_cases n _ Hp). rewrite prevBanner_cases by exact Hrange.
    destruct (Z.eqb_spec prev 0) as [E | E].
    + destruct (Z.eqb_spec (n - 1 + 1) n); lia.
    + destruct (Z.eqb_spec (prev - 1 + 1) n); lia.
Qed.

Lemma banner_arrows_inverse_witness :
  (0 <= nextBanner 3 2 < 3)%Z
  /\ (0 <= prevBanner 3 2 < 3)%Z
  /\ prevBanner 3 (nextBanner 3 2) = 2%Z
  /\ nextBanner 3 (prevBanner 3 2) = 2%Z.
Proof.
  apply (banner_arrows_inverse 3 2). lia.
Defined.

(** ** Order page: what a status update leaves alone *)

(** An accepted status update rewrites the status of the rows of the
    selected identifier and nothing else: every other order row is the row
    it was, the rewritten rows keep their payment status, payment method,
    number and total, the deliveries and the payment ledger are untouched,
    and so are the delivery and the payments shown on the page. *)
Theorem handleStatusUpdate_frame :
  forall (db : Db.t) (s : AdminOrders.State) (o : Order.t)
         (target : OrderStatus),
    AdminOrders.selectedOrder s = Some o ->
    let out := AdminOrders.handleStatusUpdate target None db s in
    Forall2
      (fun x x' => if String.eqb (Order.id x) (Order.id o)
                   then x' = Order.set_status x target else x' = x)
      (Db.orders db) (Db.orders (out_db out))
    /\ map Order.payment_status (Db.orders (out_db out))
       = map Order.payment_status (Db.orders db)
    /\ map Order.total (Db.orders (out_db out)) = map Order.total (Db.orders db)
    /\ Db.payments (out_db out) = Db.payments db
    /\ Db.deliveries (out_db out) = Db.deliveries db
    /\ AdminOrders.delivery (out_state out) = AdminOrders.delivery s
    /\ AdminOrders.payments (out_state out) = AdminOrders.payments s.
Proof.
  intros db s o target Hsel. unfold AdminOrders.handleStatusUpdate.
  rewrite Hsel. cbn -[update_where]. split; [|split; [|split]].
  - apply (update_where_Forall2
             (fun x => String.eqb (Order.id x) (Order.id o))
             (fun x => Order.set_status x target)
             (fun x x' => x' = Order.set_status x target)).
    intros r _. reflexivity.
  - apply update_where_key. intros r. reflexivity.
  - apply update_where_key. intros r. reflexivity.
  - repeat split.
Qed.

Lemma handleStatusUpdate_frame_witness :
  let o := sample_order OS_new "cod" in
  let other := Order.mk "o2" "ORD-2" OS_packed PS_paid (Some "online") 250 in
  let db := Db.with_orders empty_db [o; other] in
  let out := AdminOrders.handleStatusUpdate OS_confirmed None db
               (admin_state o None "") in
  Forall2
    (fun x x' => if String.eqb (Order.id x) (Order.id o)
                 then x' = Order.set_status x OS_confirmed else x' = x)
    (Db.orders db) (Db.orders (out_db out)).
Proof.
  intros o other db.
  exact (proj1 (handleStatusUpdate_frame db (admin_state o None "") o
                  OS_confirmed eq_refl)).
Defined.

Lemma update_where_twice {A : Type} (p : A -> bool) (f g : A -> A)
  (l : list A) :
  (forall x, p (f x) = p x) ->
  update_where p g (update_where p f l)
  = update_where p (fun x => g (f x)) l.
Proof.
  intros Hp. unfold update_where. rewrite map_map. apply map_ext.
  intros x. destruct (p x) eqn:E; [rewrite Hp|]; rewrite E; reflexivity.
Qed.

(** Two accepted status updates in a row have the effect of the last one
    alone: the store, the state of the page and the toast after the second
    call are those of a single update to the last status. *)
Theorem handleStatusUpdate_last_write_wins :
  forall (db : Db.t) (s : AdminOrders.State) (first last : OrderStatus),
    let out1 := AdminOrders.handleStatusUpdate first None db s in
    AdminOrders.handleStatusUpdate last None (out_db out1) (out_state out1)
    = AdminOrders.handleStatusUpdate last None db s.
Proof.
  intros db s first last. cbv zeta. unfold AdminOrders.handleStatusUpdate.
  destruct (AdminOrders.selectedOrder s) as [o|] eqn:Hsel.
  - cbn -[update_where].
    rewrite update_where_twice by (intros x; reflexivity).
    reflexivity.
  - cbn. rewrite Hsel. reflexivity.
Qed.

(** ** Delivery form: invariants over sequences of edits *)

Lemma merge_keeps_status (field value now : string) (x : Delivery.t) :
  In field edited_fields -> field <> "status" ->
  Delivery.status (AdminOrders.merge x (AdminOrders.updateData_of field value now))
  = Delivery.status x.
Proof.
  unfold edited_fields, AdminOrders.updateData_of.
  intros [H | [H | [H | [H | []]]]] Hne; subst field;
    [contradiction | | |]; reflexivity.
Qed.

Lemma delivery_edit_keeps (e : DeliveryEdit) (db : Db.t)
  (s : AdminOrders.State) (d : Delivery.t) :
  AdminOrders.delivery s = Some d ->
  In (edit_field e) edited_fields ->
  exists d', AdminOrders.delivery (snd (delivery_edit e (db, s))) = Some d'
             /\ delivered_at_kept d d'.
Proof.
  intros Hd Hfield. unfold delivery_edit, AdminOrders.handleDeliveryUpdate.
  cbn [fst snd]. rewrite Hd.
  destruct (edit_answer e) as [message|]; cbn.
  - exists d. split; [exact Hd|]. unfold delivered_at_kept. tauto.
  - eexists. split; [reflexivity|].
    pose proof (merge_written_as (edit_field e) (edit_value e) (edit_time e)
                  d Hfield) as (Hst & Hset & Hkeep & Hid).
    unfold delivered_at_kept. split; [exact Hid|].
    destruct (string_dec (edit_field e) "status") as [Ef | Ef].
    + destruct (string_dec (edit_value e) "delivered") as [Ev | Ev].
      * rewrite (Hset (conj Ef Ev)). split; intros; discriminate.
      * assert (Hn : ~ (edit_field e = "status" /\ edit_value e = "delivered"))
          by tauto.
        rewrite (Hkeep Hn). split; [tauto|].
        intros _ Hdel. rewrite (Hst Ef) in Hdel. contradiction.
    + assert (Hn : ~ (edit_field e = "status" /\ edit_value e = "delivered"))
        by tauto.
      rewrite (Hkeep Hn).
      rewrite (merge_keeps_status _ _ _ d Hfield Ef). tauto.
Qed.

(** Over every sequence of edits of the delivery form, accepted or rejected
    by the store, a [delivered_at] that is set is never cleared (also when
    the status leaves delivered), and if the delivery had its
    [delivered_at] whenever its status was delivered, it still has. *)
Theorem delivery_edits_keep_delivered_at :
  forall (edits : list DeliveryEdit) (db : Db.t) (s : AdminOrders.State)
         (d : Delivery.t),
    AdminOrders.delivery s = Some d ->
    Forall (fun e => In (edit_field e) edited_fields) edits ->
    exists d', AdminOrders.delivery (snd (delivery_edits edits (db, s))) = Some d'
               /\ delivered_at_kept d d'.
Proof.
  induction edits as [|e edits IH]; intros db s d Hd Hall.
  - exists d. split; [exact Hd|]. unfold delivered_at_kept. tauto.
  - inversion Hall as [|e' edits' He Hrest]; subst e' edits'.
    destruct (delivery_edit_keeps e db s d Hd He) as [d1 [Hd1 Hk1]].
    unfold delivery_edits. cbn [fold_left].
    destruct (delivery_edit e (db, s)) as [db1 s1] eqn:E. cbn [snd] in Hd1.
    destruct (IH db1 s1 d1 Hd1 Hrest) as [d2 [Hd2 Hk2]].
    exists d2. split; [exact Hd2|].
    unfold delivered_at_kept in *.
    destruct Hk1 as (Hid1 & Hset1 & Hinv1), Hk2 as (Hid2 & Hset2 & Hinv2).
    split; [congruence|]. split; [tauto|]. tauto.
Qed.

Lemma delivery_edits_keep_delivered_at_witness :
  let d := sample_delivery "delivered" (Some "2026-03-01T10:00:00.000Z") in
  let s := admin_state (sample_order OS_shipped "cod") (Some d) "" in
  let edits := [mkDeliveryEdit "status" "failed" "2026-03-02T10:00:00.000Z" None;
                mkDeliveryEdit "partner_name" "BlueDart" "" (Some "offline")] in
  exists d',
    AdminOrders.delivery
      (snd (delivery_edits edits (Db.with_deliveries empty_db [d], s))) = Some d'
    /\ delivered_at_kept d d'.
Proof.
  intros d s edits.
  apply (delivery_edits_keep_delivered_at edits
           (Db.with_deliveries empty_db [d]) s d).
  - reflexivity.
  - unfold edits, edited_fields.
    constructor; [cbn; auto | constructor; [cbn; auto | constructor]].
Defined.

(** ** Refunds and the payment selector *)

Lemma handleRefund_nothing_to_do (Number : string -> Q) (new_id : string)
  (r_insert r_update : Response) (db : Db.t) (s : AdminOrders.State) :
  AdminOrders.selectedOrder s = None
  \/ is_empty (AdminOrders.refundAmount s) = true ->
  AdminOrders.handleRefund Number new_id r_insert r_update db s = (db, s, []).
Proof.
  intros H. unfold AdminOrders.handleRefund.
  destruct (AdminOrders.selectedOrder s) as [o|]; [|reflexivity].
  destruct (is_empty (AdminOrders.refundAmount s)); [reflexivity|].
  destruct H as [H | H]; discriminate H.
Qed.

(** A refund cannot be sent twice without typing the amount again: right
    after a call whose insert was accepted, a second call of handleRefund,
    whatever the store would answer, changes neither the store nor the page
    and shows no toast. *)
Theorem handleRefund_not_repeated :
  forall (Number : string -> Q) (id1 id2 : string)
         (r_update1 r_insert2 r_update2 : Response) (db : Db.t)
         (s : AdminOrders.State),
    let out1 := AdminOrders.handleRefund Number id1 None r_update1 db s in
    AdminOrders.handleRefund Number id2 r_insert2 r_update2
      (out_db out1) (out_state out1)
    = (out_db out1, out_state out1, []).
Proof.
  intros Number id1 id2 r_update1 r_insert2 r_update2 db s. cbv zeta.
  apply handleRefund_nothing_to_do.
  unfold AdminOrders.handleRefund.
  destruct (AdminOrders.selectedOrder s) as [o|] eqn:Hsel.
  - destruct (is_empty (AdminOrders.refundAmount s)) eqn:Hamount.
    + right. exact Hamount.
    + right. reflexivity.
  - left. exact Hsel.
Qed.

(** The ledger is append-only under handleRefund: whatever the answers of
    the store, the payments after the call are the payments before it with
    at most one entry added at the end, the deliveries are untouched, and
    no order row changes its status or its total. *)
Theorem handleRefund_append_only :
  forall (Number : string -> Q) (new_id : string)
         (r_insert r_update : Response) (db : Db.t) (s : AdminOrders.State),
    let out := AdminOrders.handleRefund Number new_id r_insert r_update db s in
    (exists added, Db.payments (out_db out) = (Db.payments db ++ added)%list
                   /\ (List.length added <= 1)%nat)
    /\ Db.deliveries (out_db out) = Db.deliveries db
    /\ map Order.status (Db.orders (out_db out)) = map Order.status (Db.orders db)
    /\ map Order.total (Db.orders (out_db out)) = map Order.total (Db.orders db).
Proof.
  intros Number new_id r_insert r_update db s. cbv zeta.
  unfold AdminOrders.handleRefund.
  assert (Hsame : (exists added : list Payment.t,
                      Db.payments db = (Db.payments db ++ added)%list
                      /\ (List.length added <= 1)%nat)
                  /\ Db.deliveries db = Db.deliveries db
                  /\ map Order.status (Db.orders db) = map Order.status (Db.orders db)
                  /\ map Order.total (Db.orders db) = map Order.total (Db.orders db)).
  { split; [exists []; rewrite app_nil_r; split; [reflexivity | cbn; lia]|].
    repeat split. }
  destruct (AdminOrders.selectedOrder s) as [o|]; [|exact Hsame].
  destruct (is_empty (AdminOrders.refundAmount s)); [exact Hsame|].
  destruct r_insert as [message|]; [exact Hsame|].
  cbn -[update_where]. split.
  - eexists. split; [destruct r_update; reflexivity | cbn; lia].
  - destruct r_update as [message|]; cbn -[update_where]; repeat split;
      apply update_where_key; intros r; reflexivity.
Qed.

(** An accepted refund shows at once in the refund history of the page: the
    entry appended to the ledger is in the list read back for the selected
    order, and every payment of that list belongs to the order. *)
Theorem handleRefund_shows_in_history :
  forall (Number : string -> Q) (new_id : string) (r_update : Response)
         (db : Db.t) (s : AdminOrders.State) (o : Order.t),
    AdminOrders.selectedOrder s = Some o ->
    is_empty (AdminOrders.refundAmount s) = false ->
    let out := AdminOrders.handleRefund Number new_id None r_update db s in
    In (AdminOrders.refund_row Number new_id o s) (refund_history (out_state out))
    /\ Forall (fun p => Payment.order_id p = Order.id o)
         (AdminOrders.payments (out_state out))
    /\ AdminOrders.refundDialogOpen (out_state out) = false.
Proof.
  intros Number new_id r_update db s o Hsel Hne. cbv zeta.
  set (row := AdminOrders.refund_row Number new_id o s).
  assert (Hpay : forall l,
             l = (Db.payments db ++ [row])%list ->
             In row
               (filter (fun p => match Payment.status p with
                                 | PS_refunded => true
                                 | _ => false
                                 end)
                  (filter (fun p => String.eqb (Payment.order_id p) (Order.id o))
                     l))
             /\ Forall (fun p => Payment.order_id p = Order.id o)
                  (filter (fun p => String.eqb (Payment.order_id p) (Order.id o))
                     l)).
  { intros l Hl. rewrite Hl. split.
    - apply filter_In. split; [|reflexivity].
      apply filter_In. split; [apply in_or_app; right; left; reflexivity|].
      cbn. apply String.eqb_refl.
    - apply Forall_forall. intros p Hp. apply filter_In in Hp.
      apply String.eqb_eq. apply Hp. }
  unfold AdminOrders.handleRefund. rewrite Hsel, Hne.
  unfold refund_history.
  destruct r_update as [message|];
    cbn [out_state fst snd Db.commit AdminOrders.payments AdminOrders.setIsRefunding
         AdminOrders.fetchOrders AdminOrders.setOrders
         AdminOrders.fetchOrderDetails AdminOrders.setPayments
         AdminOrders.setDelivery AdminOrders.refundDialogOpen
         AdminOrders.setRefundForm AdminOrders.setSelectedOrder
         Db.payments Db.with_payments Db.with_orders];
    (split; [apply (Hpay _ eq_refl) | split; [apply (Hpay _ eq_refl) | reflexivity]]).
Qed.

Lemma handleRefund_shows_in_history_witness :
  let o := sample_order OS_delivered "online" in
  let s := admin_state o None "300" in
  let out := AdminOrders.handleRefund Number_of_digits "r1" None None
               (Db.with_orders empty_db [o]) s in
  In (AdminOrders.refund_row Number_of_digits "r1" o s)
    (refund_history (out_state out))
  /\ Forall (fun p => Payment.order_id p = Order.id o)
       (AdminOrders.payments (out_state out))
  /\ AdminOrders.refundDialogOpen (out_state out) = false.
Proof.
  intros o s.
  apply (handleRefund_shows_in_history Number_of_digits "r1" None
           (Db.with_orders empty_db [o]) s o); reflexivity.
Defined.

Lemma cod_selector_cases (val : PaymentStatus) (r_order r_payment : Response)
  (db : Db.t) (s : AdminOrders.State) (o : Order.t) :
  AdminOrders.selectedOrder s = Some o ->
  Order.payment_method o = Some "cod"
  \/ AdminOrders.onPaymentStatusChange val r_order r_payment db s = (db, s, []).
Proof.
  intros Hsel. unfold AdminOrders.onPaymentStatusChange. rewrite Hsel.
  destruct (Order.payment_method o) as [m|]; [|right; reflexivity].
  destruct m as [|a m]; [right; reflexivity|].
  destruct a as [[] [] [] [] [] [] [] []]; try (right; reflexivity).
  destruct m as [|a m]; [right; reflexivity|].
  destruct a as [[] [] [] [] [] [] [] []]; try (right; reflexivity).
  destruct m as [|a m]; [right; reflexivity|].
  destruct a as [[] [] [] [] [] [] [] []]; try (right; reflexivity).
  destruct m as [|a m]; [left; reflexivity | right; reflexivity].
Qed.

Lemma refunded_sum_set_status (oid : string) (p : Payment.t -> bool)
  (val : PaymentStatus) (l : list Payment.t) :
  AdminOrders.refunded_sum oid
    (update_where p (fun x => Payment.set_status x val) l)
  = AdminOrders.refunded_sum oid l.
Proof.
  induction l as [|x l IH]; [reflexivity|].
  unfold update_where, AdminOrders.refunded_sum in *.
  cbn [map fold_right]. rewrite IH. destruct (p x); reflexivity.
Qed.

(** The payment selector never moves money in the ledger: whatever the
    order, the value chosen and the answers of the store, it adds and
    removes no entry, every entry keeps its amount and its refund_amount, so
    the refunds recorded for every order sum to what they did, and no order
    changes its status. *)
Theorem onPaymentStatusChange_keeps_amounts :
  forall (val : PaymentStatus) (r_order r_payment : Response) (db : Db.t)
         (s : AdminOrders.State),
    let out := AdminOrders.onPaymentStatusChange val r_order r_payment db s in
    map Payment.amount (Db.payments (out_db out))
    = map Payment.amount (Db.payments db)
    /\ map Payment.refund_amount (Db.payments (out_db out))
       = map Payment.refund_amount (Db.payments db)
    /\ (forall oid,
          AdminOrders.refunded_sum oid (Db.payments (out_db out))
          = AdminOrders.refunded_sum oid (Db.payments db))
    /\ map Order.status (Db.orders (out_db out))
       = map Order.status (Db.orders db).
Proof.
  intros val r_order r_payment db s. cbv zeta.
  destruct (AdminOrders.selectedOrder s) as [o|] eqn:Hsel.
  - destruct (cod_selector_cases val r_order r_payment db s o Hsel)
      as [Hcod | Hnone]; [|rewrite Hnone; repeat split].
    unfold AdminOrders.onPaymentStatusChange. rewrite Hsel, Hcod.
    cbn [out_db fst]. 
    set (db1 := Db.commit r_order db _).
    assert (Hp1 : Db.payments db1 = Db.payments db)
      by (unfold db1; destruct r_order; reflexivity).
    assert (Ho1 : map Order.status (Db.orders db1)
                  = map Order.status (Db.orders db)).
    { unfold db1. destruct r_order; cbn -[update_where]; [reflexivity|].
      apply update_where_key. intros r. reflexivity. }
    destruct (single _) as [p|]; [|rewrite Hp1; repeat split; exact Ho1].
    destruct r_payment as [message|]; cbn -[update_where];
      [rewrite Hp1; repeat split; exact Ho1|].
    rewrite Hp1. split; [|split; [|split]].
    + apply update_where_key. intros r. reflexivity.
    + apply update_where_key. intros r. reflexivity.
    + intros oid. apply refunded_sum_set_status.
    + exact Ho1.
  - unfold AdminOrders.onPaymentStatusChange. rewrite Hsel. repeat split.
Qed.

(** After a refund on a cash-on-delivery order that had one payment entry
    of method cod, the selector no longer reaches the ledger: the refund
    entry is a second entry of method cod, the lookup of the single entry
    finds none, and every later change of the payment status leaves the
    ledger as the refund left it. *)
Theorem selector_after_refund_skips_ledger :
  forall (Number : string -> Q) (new_id : string) (val : PaymentStatus)
         (r_update r_order r_payment : Response) (db : Db.t)
         (s : AdminOrders.State) (o : Order.t) (capture : Payment.t),
    AdminOrders.selectedOrder s = Some o ->
    Order.payment_method o = Some "cod" ->
    is_empty (AdminOrders.refundAmount s) = false ->
    filter (fun p => String.eqb (Payment.order_id p) (Order.id o)
                     && String.eqb (Payment.method p) "cod")
      (Db.payments db) = [capture] ->
    let out1 := AdminOrders.handleRefund Number new_id None r_update db s in
    let out2 := AdminOrders.onPaymentStatusChange val r_order r_payment
                  (out_db out1) (out_state out1) in
    Db.payments (out_db out2)
    = (Db.payments db ++ [AdminOrders.refund_row Number new_id o s])%list
    /\ option_map Order.payment_status (AdminOrders.selectedOrder (out_state out2))
       = Some val.
Proof.
  intros Number new_id val r_update r_order r_payment db s o capture
    Hsel Hcod Hne Hone. cbv zeta.
  unfold AdminOrders.handleRefund. rewrite Hsel, Hne.
  cbn [out_db out_state fst snd].
  set (row := AdminOrders.refund_row Number new_id o s).
  set (db2 := Db.commit r_update _ _).
  assert (Hp2 : Db.payments db2 = (Db.payments db ++ [row])%list)
    by (unfold db2; destruct r_update; reflexivity).
  unfold AdminOrders.onPaymentStatusChange.
  cbn [AdminOrders.selectedOrder AdminOrders.setIsRefunding
       AdminOrders.fetchOrders AdminOrders.setOrders
       AdminOrders.fetchOrderDetails AdminOrders.setPayments
       AdminOrders.setDelivery AdminOrders.setRefundForm
       AdminOrders.setSelectedOrder Order.set_payment_status
       Order.payment_method Order.id].
  rewrite Hcod.
  set (db3 := Db.commit r_order db2 _).
  assert (Hp3 : Db.payments db3 = (Db.payments db ++ [row])%list)
    by (unfold db3; destruct r_order; [exact Hp2 | exact Hp2]).
  rewrite Hp3, filter_app, Hone.
  assert (Hrow : filter (fun p => String.eqb (Payment.order_id p) (Order.id o)
                                  && String.eqb (Payment.method p) "cod") [row]
                 = [row]).
  { cbn. rewrite String.eqb_refl. rewrite Hcod. reflexivity. }
  rewrite Hrow. cbn [app single].
  cbn [out_db out_state fst snd]. split; [exact Hp3 | reflexivity].
Qed.

Lemma selector_after_refund_skips_ledger_witness :
  let o := sample_order OS_delivered "cod" in
  let capture := Payment.mk "pay1" "o1" 1000 "cod" PS_pending None None in
  let db := Db.with_payments (Db.with_orders empty_db [o]) [capture] in
  let s := admin_state o None "300" in
  let out1 := AdminOrders.handleRefund Number_of_digits "r1" None None db s in
  let out2 := AdminOrders.onPaymentStatusChange PS_paid None None
                (out_db out1) (out_state out1) in
  Db.payments (out_db out2)
  = (Db.payments db ++ [AdminOrders.refund_row Number_of_digits "r1" o s])%list
  /\ option_map Order.payment_status (AdminOrders.selectedOrder (out_state out2))
     = Some PS_paid.
Proof.
  intros o capture db s.
  apply (selector_after_refund_skips_ledger Number_of_digits "r1" PS_paid
           None None None db s o capture); reflexivity.
Defined.

(** ** Search of the order list *)

Lemma startsWith_empty (s : string) : startsWith s "" = true.
Proof. destruct s; reflexivity. Qed.

Lemma startsWith_append (x b : string) : startsWith (x ++ b) x = true.
Proof.
  unfold startsWith. induction x as [|c x IH]; cbn.
  - destruct b; reflexivity.
  - destruct (ascii_dec c c) as [_ | Hc]; [exact IH | contradiction].
Qed.

Lemma includes_middle (a x b : string) : includes (a ++ x ++ b) x = true.
Proof.
  induction a as [|c a IH]; cbn [String.append].
  - assert (H : startsWith (x ++ b) x = true) by apply startsWith_append.
    destruct (x ++ b)%string; cbn [includes]; rewrite H; reflexivity.
  - cbn [includes]. rewrite IH. apply orb_true_r.
Qed.

Lemma toLowerCase_append (a b : string) :
  toLowerCase (a ++ b) = (toLowerCase a ++ toLowerCase b)%string.
Proof.
  induction a as [|c a IH]; cbn; [reflexivity | rewrite IH; reflexivity].
Qed.

Lemma filter_all {A : Type} (p : A -> bool) (l : list A) :
  (forall x, p x = true) -> filter p l = l.
Proof.
  intros Hp. induction l as [|x l IH]; cbn; [reflexivity|].
  rewrite Hp, IH. reflexivity.
Qed.

(** The search of the order list: an empty search text shows every order;
    an order is shown whenever the text equals, letter case apart, any part
    of its order number (the whole number included); and every order shown
    is an order of the list. *)
Theorem filteredOrders_finds :
  forall orders : list Order.t,
    filteredOrders orders "" = orders
    /\ (forall (o : Order.t) (searchQuery before part after : string),
          In o orders ->
          Order.order_number o = (before ++ part ++ after)%string ->
          toLowerCase searchQuery = toLowerCase part ->
          In o (filteredOrders orders searchQuery))
    /\ (forall (o : Order.t) (searchQuery : string),
          In o (filteredOrders orders searchQuery) -> In o orders).
Proof.
  intros orders. unfold filteredOrders. split; [|split].
  - apply filter_all. intros o. cbn [toLowerCase].
    destruct (toLowerCase (Order.order_number o)); cbn [includes];
      rewrite startsWith_empty; reflexivity.
  - intros o q before part after Hin Hnum Hq.
    apply filter_In. split; [exact Hin|].
    rewrite Hnum, Hq, !toLowerCase_append. apply includes_middle.
  - intros o q Hin. apply filter_In in Hin. apply Hin.
Qed.

(** ** Sidebar *)

Lemma prefix_common (s a b : string) :
  String.prefix a s = true -> String.prefix b s = true ->
  String.prefix a b = true \/ String.prefix b a = true.
Proof.
  revert a b. induction s as [|c s IH]; intros a b Ha Hb.
  - destruct a; [|discriminate Ha]. left. destruct b; reflexivity.
  - destruct a as [|x a]; [left; destruct b; reflexivity|].
    destruct b as [|y b]; [right; reflexivity|].
    cbn in Ha, Hb.
    destruct (ascii_dec x c) as [Ex | Ex]; [|discriminate Ha].
    destruct (ascii_dec y c) as [Ey | Ey]; [|discriminate Hb].
    subst x y. cbn.
    destruct (ascii_dec c c) as [_ | Hc]; [|contradiction].
    apply IH; assumption.
Qed.

Lemma menu_prefix_clash (pathname a b : string) :
  startsWith pathname a = true -> startsWith pathname b = true ->
  String.prefix a b = false -> String.prefix b a = false -> False.
Proof.
  unfold startsWith. intros Ha Hb Hab Hba.
  destruct (prefix_common pathname a b Ha Hb) as [H | H]; congruence.
Qed.

(** At every location at most one entry of the menu is highlighted, and the
    dashboard entry is highlighted at the location /admin and nowhere
    else. *)
Theorem sidebar_one_active :
  forall pathname : string,
    (forall i j : MenuItem,
        In i menuItems -> In j menuItems ->
        item_active pathname i = true -> item_active pathname j = true ->
        i = j)
    /\ (item_active pathname (mkMenuItem "/admin" "Dashboard" true) = true
        <-> pathname = "/admin").
Proof.
  intros pathname. split.
  - intros i j Hi Hj Ai Aj. unfold menuItems in Hi, Hj. cbn [In] in Hi, Hj.
    repeat (destruct Hi as [Hi | Hi]; [subst i|]); [..|destruct Hi];
      (repeat (destruct Hj as [Hj | Hj]; [subst j|]); [..|destruct Hj]);
      try reflexivity; exfalso;
      unfold item_active, isActive in Ai, Aj;
      cbn [exact_match path] in Ai, Aj;
      try (apply String.eqb_eq in Ai; subst pathname; discriminate Aj);
      try (apply String.eqb_eq in Aj; subst pathname; discriminate Ai);
      apply andb_true_iff in Ai, Aj;
      destruct Ai as [Ai _], Aj as [Aj _];
      exact (menu_prefix_clash pathname _ _ Ai Aj eq_refl eq_refl).
  - unfold item_active. cbn [exact_match path]. apply String.eqb_eq.
Qed.

(** ** Settings *)

Section SettingsProps.

Context {Value : Type}.

Lemma apply_row_field (k : string) (s : AdminSettings.State Value)
  (item : Setting.t Value) :
  In k setting_keys ->
  AdminSettings.field_of k (AdminSettings.apply_row s item)
  = setting_step k (AdminSettings.field_of k s) item.
Proof.
  unfold setting_keys, setting_step.
  intros [H | [H | [H | [H | [H | [H | []]]]]]]; subst k;
    unfold AdminSettings.apply_row, AdminSettings.field_of; cbv zeta;
    repeat match goal with
           | |- context [String.eqb (Setting.key item) ?c] =>
               let E := fresh "E" in
               destruct (String.eqb_spec (Setting.key item) c) as [E | E];
               [try rewrite E; reflexivity|]
           end;
    reflexivity.
Qed.

Lemma fetch_fold (k : string) (rows : list (Setting.t Value)) :
  In k setting_keys ->
  forall s,
    AdminSettings.field_of k (fold_left AdminSettings.apply_row rows s)
    = fold_left (setting_step k) rows (AdminSettings.field_of k s).
Proof.
  intros Hk. induction rows as [|item rows IH]; intros s; [reflexivity|].
  cbn [fold_left]. rewrite IH, apply_row_field by exact Hk. reflexivity.
Qed.

Lemma step_after_update (k : string) (v : Value) (rows : list (Setting.t Value)) :
  forall acc,
    fold_left (setting_step k)
      (update_where (fun x => String.eqb (Setting.key x) k)
         (fun x => Setting.mk (Setting.key x) v) rows) acc
    = if existsb (fun x => String.eqb (Setting.key x) k) rows
      then Some v else acc.
Proof.
  unfold update_where, setting_step.
  induction rows as [|x rows IH]; intros acc; [reflexivity|].
  cbn [map fold_left existsb].
  destruct (String.eqb (Setting.key x) k) eqn:E; cbn [Setting.key Setting.value].
  - rewrite E, IH. cbn. destruct (existsb _ rows); reflexivity.
  - rewrite E, IH. reflexivity.
Qed.

Lemma filter_nonempty_existsb {A : Type} (p : A -> bool) (l : list A) (x : A)
  (rest : list A) :
  filter p l = x :: rest -> existsb p l = true.
Proof.
  intros H. apply existsb_exists. exists x.
  assert (Hin : In x (filter p l)) by (rewrite H; left; reflexivity).
  apply filter_In in Hin. exact Hin.
Qed.

(** A setting saved is the setting read back by the settings page: for
    each of the six keys of the page, after an accepted handleSave of a
    value under the key, fetchSettings puts that value in the field of the
    key, whatever rows the table held before, duplicates included. *)
Theorem handleSave_then_fetchSettings :
  forall (k : string) (v : Value) (rows : list (Setting.t Value))
         (s s0 : AdminSettings.State Value),
    In k setting_keys ->
    let saved := fst (fst (AdminSettings.handleSave k v None rows s)) in
    AdminSettings.field_of k (AdminSettings.fetchSettings (Some saved) s0)
    = Some v.
Proof.
  intros k v rows s s0 Hk. cbv zeta.
  unfold AdminSettings.fetchSettings, AdminSettings.handleSave.
  cbn [fst].
  assert (Hload : forall st : AdminSettings.State Value,
             AdminSettings.field_of k (AdminSettings.setIsLoading st false)
             = AdminSettings.field_of k st) by (intros st; reflexivity).
  rewrite Hload, fetch_fold by exact Hk.
  destruct (filter _ rows) as [|x [|y rest]] eqn:Hf; cbn [single].
  - rewrite fold_left_app. cbn [fold_left]. unfold setting_step at 1.
    cbn [Setting.key Setting.value]. rewrite String.eqb_refl. reflexivity.
  - rewrite step_after_update.
    rewrite (filter_nonempty_existsb _ _ _ _ Hf). reflexivity.
  - rewrite fold_left_app. cbn [fold_left]. unfold setting_step at 1.
    cbn [Setting.key Setting.value]. rewrite String.eqb_refl. reflexivity.
Qed.

(** Saving keeps keys unique, and does not repair duplicates: when no row
    carries the key the row is appended, when one row carries it that row
    is rewritten in place and no row is added, and in both cases exactly
    one row then carries the key, with the saved value, so the header reads
    that value; rows of other keys are the rows they were; when two or more
    rows carry the key, the table after the save is the table before it
    with one more row of the key appended, and the read of the header still
    finds no single row; a rejected save leaves the table as it was. *)
Theorem handleSave_keys :
  forall (k : string) (v : Value) (rows : list (Setting.t Value))
         (s : AdminSettings.State Value),
    let saved := fst (fst (AdminSettings.handleSave k v None rows s)) in
    let with_key k' (l : list (Setting.t Value)) :=
      filter (fun x => String.eqb (Setting.key x) k') l in
    ((List.length (with_key k rows) <= 1)%nat ->
     with_key k saved = [Setting.mk k v] /\ header_setting k saved = Some v)
    /\ (with_key k rows = [] -> saved = (rows ++ [Setting.mk k v])%list)
    /\ (forall x, with_key k rows = [x] ->
                  List.length saved = List.length rows
                  /\ map Setting.key saved = map Setting.key rows)
    /\ (forall k', k' <> k -> with_key k' saved = with_key k' rows)
    /\ ((2 <= List.length (with_key k rows))%nat ->
        saved = (rows ++ [Setting.mk k v])%list
        /\ List.length (with_key k saved)
           = S (List.length (with_key k rows))
        /\ header_setting k saved = None)
    /\ (forall message,
          fst (fst (AdminSettings.handleSave k v (Some message) rows s)) = rows).
Proof.
  intros k v rows s. cbv zeta. unfold AdminSettings.handleSave, header_setting.
  cbn [fst].
  destruct (filter (fun x => String.eqb (Setting.key x) k) rows)
    as [|x [|y rest]] eqn:Hf; cbn [single List.length].
  - split; [|split; [|split; [|split; [|split]]]].
    + intros _. rewrite filter_app, Hf. cbn. rewrite String.eqb_refl.
      split; reflexivity.
    + intros _. reflexivity.
    + intros x Hx. discriminate Hx.
    + intros k' Hk'. rewrite filter_app. cbn.
      destruct (String.eqb_spec k k') as [E | E]; [congruence|].
      apply app_nil_r.
    + intros H. lia.
    + reflexivity.
  - assert (Hx : Setting.key x = k).
    { assert (Hin : In x (filter (fun x => String.eqb (Setting.key x) k) rows))
        by (rewrite Hf; left; reflexivity).
      apply filter_In in Hin. apply String.eqb_eq. apply Hin. }
    split; [|split; [|split; [|split; [|split]]]].
    + intros _. rewrite filter_update_where by (intros z; reflexivity).
      rewrite Hf. cbn. rewrite Hx, String.eqb_refl. split; reflexivity.
    + intros H. discriminate H.
    + intros x' _. split.
      * apply update_where_length.
      * apply update_where_key. intros z. reflexivity.
    + intros k' Hk'. rewrite filter_update_where by (intros z; reflexivity).
      apply update_where_none. intros r Hr. apply filter_In in Hr.
      destruct Hr as [_ Hr]. apply String.eqb_eq in Hr.
      apply String.eqb_neq. congruence.
    + intros H. lia.
    + reflexivity.
  - split; [|split; [|split; [|split; [|split]]]].
    + intros H. lia.
    + intros H. discriminate H.
    + intros x' H. discriminate H.
    + intros k' Hk'. rewrite filter_app. cbn.
      destruct (String.eqb_spec k k') as [E | E]; [congruence|].
      apply app_nil_r.
    + intros _. split; [reflexivity|]. rewrite filter_app, Hf.
      cbn [filter Setting.key]. rewrite String.eqb_refl.
      split; [rewrite length_app; cbn; lia | reflexivity].
    + reflexivity.
Qed.

End SettingsProps.

Lemma handleSave_then_fetchSettings_witness :
  let rows := [Setting.mk "checkout" "old"; Setting.mk "checkout" "older"] in
  let s := AdminSettings.mk "" "" "" "" "" "" false None in
  let saved := fst (fst (AdminSettings.handleSave "checkout" "new" None rows s)) in
  AdminSettings.field_of "checkout" (AdminSettings.fetchSettings (Some saved) s)
  = Some "new".
Proof.
  intros rows s.
  apply (handleSave_then_fetchSettings "checkout" "new" rows s s).
  unfold setting_keys. cbn. auto.
Defined.

(** ** Dashboard *)

Lemma status_counts (l : list DashboardOrder.t) :
  (List.length (filter (is_status OS_new) l)
   + List.length
       (filter (fun o => is_status OS_confirmed o || is_status OS_packed o) l)
   + List.length (filter (is_status OS_delivered) l)
   + List.length
       (filter (fun o => is_status OS_shipped o || is_status OS_cancelled o
                         || is_status OS_returned o) l)
   = List.length l)%nat.
Proof.
  induction l as [|x l IH]; [reflexivity|].
  cbn [filter]. unfold is_status in *.
  destruct (Order.status (DashboardOrder.order x)); cbn [orb List.length]; lia.
Qed.

(** The counters of the dashboard split the orders by status without
    overlap: new, processing (confirmed or packed) and delivered orders,
    together with the shipped, cancelled and returned orders that no
    counter shows, add up to the total number of orders. *)
Theorem dashboard_status_counters :
  forall (today : Z) (orders : option (list DashboardOrder.t))
         (products : option (list DashboardProduct.t))
         (customers : option (list string)),
    let stats := fst (fst (fetchDashboardData today orders products customers)) in
    (newOrders stats + processingOrders stats + deliveredOrders stats
     + List.length
         (filter (fun o => is_status OS_shipped o || is_status OS_cancelled o
                           || is_status OS_returned o) (or_empty orders))
     = totalOrders stats)%nat
    /\ (newOrders stats + processingOrders stats + deliveredOrders stats
        <= totalOrders stats)%nat.
Proof.
  intros today orders products customers. cbn.
  pose proof (status_counts (or_empty orders)) as H. split; [exact H | lia].
Qed.


Lemma sales_acc (l : list DashboardOrder.t) :
  forall acc,
    fold_left (fun sum o => sum + Order.total (DashboardOrder.order o)) l acc
    == acc
       + fold_left (fun sum o => sum + Order.total (DashboardOrder.order o)) l 0.
Proof.
  induction l as [|x l IH]; intros acc; cbn [fold_left].
  - lra.
  - rewrite IH. rewrite (IH (0 + _)). lra.
Qed.

(** The sales of today add up every order created today, whatever its
    status: one more order created at or after the start of today raises
    todaySales by its total, also when it is cancelled or returned, and one
    more order created before today leaves todaySales as it was. *)
Theorem dashboard_today_sales :
  forall (today : Z) (orders : list DashboardOrder.t) (o : DashboardOrder.t)
         (products : option (list DashboardProduct.t))
         (customers : option (list string)),
    let sales l :=
      todaySales (fst (fst (fetchDashboardData today (Some l) products
                              customers))) in
    ((today <= DashboardOrder.created_at o)%Z ->
     sales (orders ++ [o])%list
     == sales orders + Order.total (DashboardOrder.order o))
    /\ ((DashboardOrder.created_at o < today)%Z ->
        sales (orders ++ [o])%list = sales orders).
Proof.
  intros today orders o products customers.
  cbn [fetchDashboardData fst snd todaySales or_empty]. split.
  - intros H. apply Z.leb_le in H. rewrite filter_app. cbn [filter].
    rewrite H. rewrite fold_left_app. cbn [fold_left]. reflexivity.
  - intros H. apply Z.leb_gt in H. rewrite filter_app. cbn [filter].
    rewrite H. rewrite app_nil_r. reflexivity.
Qed.

(** ** Product card *)

(** The percentage of the discount label: for a product whose list price is
    above its price, with a price that is not negative, the card shows a
    discount, the number of the label lies between 0 and 100 and is less
    than 1 away from the percentage (mrp - price) / mrp * 100; it is 0, the
    label reading 0% OFF, when that percentage is under one quarter. *)
Theorem percent_off_bounds :
  forall (p : CardProduct.t) (m : Q),
    CardProduct.mrp p = Some m ->
    mrp_above_price p = true ->
    0 <= Product.price (CardProduct.product p) ->
    let percentage := (m - Product.price (CardProduct.product p)) / m * 100 in
    let shown := percent_off (Product.price (CardProduct.product p)) m in
    hasDiscount p None = true
    /\ (0 <= shown <= 100)%Z
    /\ percentage - 1 < inject_Z shown
    /\ inject_Z shown < percentage + 1
    /\ (percentage < 1 # 4 -> shown = 0%Z).
Proof.
  intros p m Hm Habove Hprice. cbv zeta.
  set (price := Product.price (CardProduct.product p)) in *.
  assert (Hlt : price < m).
  { unfold mrp_above_price in Habove. rewrite Hm in Habove.
    apply andb_true_iff in Habove. destruct Habove as [_ H].
    apply negb_true_iff in H. fold price in H.
    destruct (Qlt_le_dec price m) as [Hl | Hl]; [exact Hl|].
    apply Qle_bool_iff in Hl. congruence. }
  assert (Hmpos : 0 < m) by lra.
  set (x := (m - price) / m * 100).
  assert (Hx : 0 <= x /\ x <= 100).
  { assert (H0 : 0 <= (m - price) / m)
      by (apply Qle_shift_div_l; [exact Hmpos | lra]).
    assert (H1 : (m - price) / m <= 1)
      by (apply Qle_shift_div_r; [exact Hmpos | lra]).
    unfold x. split; lra. }
  unfold percent_off, Math_round. fold x.
  pose proof (Qfloor_le (x + (1 # 2))) as Hfl.
  pose proof (Qlt_floor (x + (1 # 2))) as Hfu.
  rewrite inject_Z_plus in Hfu. change (inject_Z 1) with 1 in Hfu.
  assert (Hlow : (0 <= Qfloor (x + (1 # 2)))%Z).
  { change 0%Z with (Qfloor 0). apply Qfloor_resp_le. lra. }
  assert (Hhigh : (Qfloor (x + (1 # 2)) <= 100)%Z).
  { change 100%Z with (Qfloor (100 + (1 # 2))). apply Qfloor_resp_le. lra. }
  split; [exact Habove|]. split; [lia|].
  split; [lra|]. split; [lra|].
  intros Hsmall.
  assert (Hone : inject_Z (Qfloor (x + (1 # 2))) < inject_Z 1)
    by (change (inject_Z 1) with 1; lra).
  rewrite <- Zlt_Qlt in Hone. lia.
Qed.

Lemma percent_off_bounds_witness :
  let p := CardProduct.mk (sample_product 85 5) (Some 200) in
  let percentage := (200 - Product.price (CardProduct.product p)) / 200 * 100 in
  let shown := percent_off (Product.price (CardProduct.product p)) 200 in
  hasDiscount p None = true
  /\ (0 <= shown <= 100)%Z
  /\ percentage - 1 < inject_Z shown
  /\ inject_Z shown < percentage + 1
  /\ (percentage < 1 # 4 -> shown = 0%Z).
Proof.
  intros p.
  apply (percent_off_bounds p 200); [reflexivity | reflexivity |].
  vm_compute. discriminate.
Defined.

(** ** Progress bar and shipping threshold *)

(** The progress of a delivery is a percentage between 0 and 100 in every
    state of the page, and it is 0 exactly when the page has no delivery or
    the status of the delivery is not one of the six of the list. *)
Theorem getDeliveryProgress_range :
  forall s : AdminOrders.State,
    0 <= AdminOrders.getDeliveryProgress s
    /\ AdminOrders.getDeliveryProgress s <= 100
    /\ (AdminOrders.getDeliveryProgress s == 0 <->
        AdminOrders.delivery s = None
        \/ exists d, AdminOrders.delivery s = Some d
                     /\ ~ In (Delivery.status d) DELIVERY_STATUSES).
Proof.
  intros s. unfold AdminOrders.getDeliveryProgress.
  destruct (AdminOrders.delivery s) as [d|].
  - unfold indexOf, DELIVERY_STATUSES. cbn [indexOf_from List.length In].
    repeat match goal with
           | |- context [String.eqb ?c (Delivery.status d)] =>
               let E := fresh "E" in
               destruct (String.eqb_spec c (Delivery.status d)) as [E | E];
               [ split; [discriminate|]; split; [discriminate|];
                 split; [intros H; discriminate H|];
                 intros [H | [d' [Hd' Hnot]]]; [discriminate H|];
                 injection Hd' as Hd'; subst d'; exfalso; apply Hnot; tauto
               | ]
           end.
    split; [discriminate|]. split; [discriminate|].
    split; [|reflexivity].
    intros _. right. exists d. split; [reflexivity|]. tauto.
  - split; [discriminate|]. split; [discriminate|].
    split; [intros _; left; reflexivity | reflexivity].
Qed.


